(** * Diabetic patient-care dashboard: filtering and aggregation core

    A shallow embedding of [src/core.py]: the sidebar filter
    ([get_filtered_data]), the KPI aggregator ([compute_kpis]), the gauge
    of the KPI cards ([gauge_style]) and the computed parts of
    [show_overview] (card colors, insight levels, the three chart tabs and
    the odds ratio), together with the Overview and EDA pages that call
    them, followed by the properties the specification states about them
    and further properties read off the code.

    Conventions of the embedding.
    - A [pd.DataFrame] is the list of its rows, in index order; a
      [pd.Series] is the list of its values.  Boolean masks are lists of
      [bool] aligned by position (all masks in the source are built from
      the frame they index, so their indexes coincide).
    - A binary64 number is modelled by the rational it denotes, [NaN] by
      [None]; arithmetic is exact.  Infinities do not occur in the modelled
      code paths (every division has a non-zero denominator or is guarded).
    - [round(x, n)] is rounding to [n] decimals, ties to even. *)

From Stdlib Require Import ZArith QArith Qround Qabs String List Bool Lia Lqa.
From Stdlib Require Import DecimalString DecimalZ DecimalPos Sorted Permutation.
Import ListNotations.

Local Open Scope Z_scope.

(** ** Numbers *)

Module Float.

  (** [None] is NaN. *)
Definition float := option Q.
Definition NaN : float := None.

Definition of_Z (z : Z) : float := Some (inject_Z z).

Definition mul (x y : float) : float :=
    match x, y with
    | Some a, Some b => Some (a * b)%Q
    | _, _ => None
    end.

  (** [x >= y]: any comparison with NaN is [False]. *)
Definition geb (x y : float) : bool :=
    match x, y with
    | Some a, Some b => Qle_bool b a
    | _, _ => false
    end.

  (** Nearest integer, ties to even. *)
Definition rint (x : Q) : Z :=
    let f := Qfloor x in
    match (x - inject_Z f ?= 1 # 2)%Q with
    | Lt => f
    | Gt => f + 1
    | Eq => if Z.even f then f else f + 1
    end.

Definition pow10 (ndigits : nat) : positive := Pos.pow 10 (Pos.of_nat ndigits).

  (** [round(x, ndigits)] for [ndigits >= 1]; the result is kept in lowest
      terms, so that equal numbers are equal terms. *)
Definition round_Q (x : Q) (ndigits : nat) : Q :=
    Qred (rint (x * inject_Z (Zpos (pow10 ndigits))) # pow10 ndigits).

Definition round (x : float) (ndigits : nat) : float :=
    match x with
    | Some a => Some (round_Q a ndigits)
    | None => None
    end.

End Float.

Import Float.

(** ** A small pandas *)

Module Pandas.

Section Series.
Context {A : Type}.

    (** [s.isin(values)] *)
Definition isin (eqb : A -> A -> bool) (s : list A) (values : list A) : list bool :=
      map (fun x => existsb (eqb x) values) s.

    (** [s == v] *)
Definition eq_scalar (eqb : A -> A -> bool) (s : list A) (v : A) : list bool :=
      map (fun x => eqb x v) s.

    (** [df[mask]] *)
Fixpoint loc (df : list A) (mask : list bool) : list A :=
      match df, mask with
      | r :: df', b :: mask' => if b then r :: loc df' mask' else loc df' mask'
      | _, _ => []
      end.

    (** [s.unique()]: distinct values in order of first appearance. *)
Definition unique (eqb : A -> A -> bool) (s : list A) : list A :=
      fold_left (fun seen x => if existsb (eqb x) seen then seen else seen ++ [x]) s [].

    (** [sorted(xs)], as a stable insertion sort on [leb]. *)
Fixpoint insert_sorted (leb : A -> A -> bool) (x : A) (l : list A) : list A :=
      match l with
      | [] => [x]
      | y :: l' => if leb x y then x :: l else y :: insert_sorted leb x l'
      end.

Definition sorted (leb : A -> A -> bool) (l : list A) : list A :=
      fold_right (insert_sorted leb) [] l.
End Series.

  (** [m1 & m2] *)
Fixpoint mask_and (m1 m2 : list bool) : list bool :=
    match m1, m2 with
    | b1 :: m1', b2 :: m2' => (b1 && b2)%bool :: mask_and m1' m2'
    | _, _ => []
    end.

  (** [~m] *)
Definition mask_not (m : list bool) : list bool := map negb m.

  (** [m.sum()] of a boolean series. *)
Definition sum_bool (m : list bool) : Z :=
    fold_right (fun (b : bool) acc => (if b then 1 else 0) + acc) 0 m.

Definition sum_Z (s : list Z) : Z := fold_right Z.add 0 s.

  (** [s.mean()]: NaN on an empty series. *)
Definition mean_of (total : Z) (count : nat) : float :=
    match count with
    | O => NaN
    | _ => Some (inject_Z total / inject_Z (Z.of_nat count))%Q
    end.

Definition mean_bool (m : list bool) : float := mean_of (sum_bool m) (length m).
Definition mean_Z (s : list Z) : float := mean_of (sum_Z s) (length s).

  (** [s >= k] on a float column. *)
Definition ge_scalar (s : list float) (k : Z) : list bool :=
    map (fun x => geb x (of_Z k)) s.

End Pandas.

Import Pandas.

(** ** Data model *)

(** One row of the dataset, restricted to the columns the core reads.
    [num_medications] is the column after [pd.to_numeric(..., errors="coerce")]:
    a number, or NaN where the cell was not numeric.  [age_group] is
    [age] as a string, so it is never missing; [gender],
    [admission_type_id], [time_in_hospital] and [readmitted] are taken as
    present in every row. *)
Record Encounter := mkEncounter {
  age_group : string;
  gender : string;
  admission_type_id : Z;
  time_in_hospital : Z;
  num_medications : float;
  readmitted : string
}.

Definition DataFrame := list Encounter.

(** ** Sidebar filters ([get_filtered_data]) *)

Definition ADMISSION_TYPE_LABELS : list (Z * string) :=
  [ (1, "Emergency"); (2, "Urgent"); (3, "Elective"); (4, "Newborn");
    (5, "Not Available"); (6, "Other"); (7, "Trauma Center / Other");
    (8, "Not Mapped"); (9, "Unknown") ]%string.

(** [str(a)] of an integer. *)
Definition str_Z (a : Z) : string := NilZero.string_of_int (Z.to_int a).

(** [ADMISSION_TYPE_LABELS.get(int(a), str(a))] *)
Definition admission_label (a : Z) : string :=
  match find (fun kv => Z.eqb (fst kv) a) ADMISSION_TYPE_LABELS with
  | Some kv => snd kv
  | None => str_Z a
  end.

(** The widget state one script run sees: whether the reset button was
    clicked, and the stored value of each keyed checkbox. *)
Record Sidebar := mkSidebar {
  reset_clicked : bool;
  session_state : string -> option bool
}.

(** [st.checkbox(label, value=..., key=...)]: the stored value of the
    widget, or its default when the key is not in the session state.  The
    label is only displayed. *)
Definition checkbox (ui : Sidebar) (label key : string) (value : bool) : bool :=
  match session_state ui key with
  | Some b => b
  | None => value
  end.

(** Outcome of a script function that may call [st.rerun()]. *)
Inductive Run (A : Type) : Type :=
| Rerun (state : string -> option bool)
| Done (result : A).
Arguments Rerun {A} state.
Arguments Done {A} result.

(** Lines 147-151: the three [isin] masks, and-ed, index the raw frame. *)
Definition apply_filters (df_raw : DataFrame)
    (age_selected gender_selected : list string) (adm_selected : list Z) : DataFrame :=
  loc df_raw
    (mask_and
       (mask_and (isin String.eqb (map age_group df_raw) age_selected)
                 (isin String.eqb (map gender df_raw) gender_selected))
       (isin Z.eqb (map admission_type_id df_raw) adm_selected)).

Definition filter_key_prefixes : list string := ["age_"; "gender_"; "adm_"; "all_"]%string.

Definition get_filtered_data (ui : Sidebar) (df_raw : DataFrame) : Run DataFrame :=
  if reset_clicked ui then
    Rerun (fun key =>
             if existsb (fun p => String.prefix p key) filter_key_prefixes
             then None else session_state ui key)
  else
    let age_groups := sorted String.leb (unique String.eqb (map age_group df_raw)) in
    let age_selected :=
      if checkbox ui "Select All" "all_age" true then age_groups
      else filter (fun a => checkbox ui a ("age_" ++ a) false) age_groups in
    let genders := sorted String.leb (unique String.eqb (map gender df_raw)) in
    let gender_selected :=
      if checkbox ui "Select All" "all_gender" true then genders
      else filter (fun g => checkbox ui g ("gender_" ++ g) false) genders in
    let adm_types := sorted Z.leb (unique Z.eqb (map admission_type_id df_raw)) in
    let adm_selected :=
      if checkbox ui "Select All" "all_adm" true then adm_types
      else filter (fun a => checkbox ui (admission_label a) ("adm_" ++ str_Z a) false)
                  adm_types in
    Done (apply_filters df_raw age_selected gender_selected adm_selected).

(** ** Data loading ([load_data]) *)

(** A cell of the [num_medications] column as [pd.read_csv] delivers it: a
    parsed number, the text of a cell that did not parse, or an empty cell. *)
Inductive Cell :=
| Number (q : Q)
| Text (s : string)
| Missing.

Record RawRow := mkRawRow {
  raw_age : string;
  raw_gender : string;
  raw_admission_type_id : Z;
  raw_time_in_hospital : Z;
  raw_num_medications : Cell;
  raw_readmitted : string
}.

Record RawFrame := mkRawFrame {
  columns : list string;
  records : list RawRow
}.

Inductive LoadResult :=
| ValueError (msg : string)
| Loaded (df : DataFrame).

Section Load.

(** The number parser of [pd.to_numeric] on text: [None] when the text is
    not a number.  It belongs to pandas, so it is a parameter here. *)
Variable parse_number : string -> option Q.

(** [pd.to_numeric(col, errors="coerce")], cell by cell. *)
Definition to_numeric_coerce (c : Cell) : float :=
  match c with
  | Number q => Some q
  | Text s => parse_number s
  | Missing => NaN
  end.

Definition load_row (r : RawRow) : Encounter :=
  {| age_group := raw_age r;
     gender := raw_gender r;
     admission_type_id := raw_admission_type_id r;
     time_in_hospital := raw_time_in_hospital r;
     num_medications := to_numeric_coerce (raw_num_medications r);
     readmitted := raw_readmitted r |}.

Definition load_data (raw : RawFrame) : LoadResult :=
  if negb (existsb (String.eqb "num_medications") (columns raw)) then
    ValueError "Expected 'num_medications' column not found in CSV."
  else
    Loaded (map load_row (records raw)).

End Load.

(** ** KPI aggregator ([compute_kpis]) *)

Record KPIs := mkKPIs {
  readmission_rate : float;
  avg_los_readmitted : float;
  polypharmacy_rate : float;
  readmitted_df : DataFrame
}.

Definition compute_kpis (df : DataFrame) : KPIs :=
  let readmission_rate :=
    if (0 <? length df)%nat then
      mul (mean_bool (eq_scalar String.eqb (map readmitted df) "<30"%string)) (of_Z 100)
    else of_Z 0 in
  let readmission_rate := round readmission_rate 1 in
  let readmitted_df :=
    loc df (isin String.eqb (map readmitted df) ["<30"; ">30"]%string) in
  let '(avg_los_readmitted, polypharmacy_rate) :=
    if (0 <? length readmitted_df)%nat then
      (round (mean_Z (map time_in_hospital readmitted_df)) 1,
       mul (mean_bool (ge_scalar (map num_medications readmitted_df) 10)) (of_Z 100))
    else (of_Z 0, of_Z 0) in
  let polypharmacy_rate := round polypharmacy_rate 1 in
  {| readmission_rate := readmission_rate;
     avg_los_readmitted := avg_los_readmitted;
     polypharmacy_rate := polypharmacy_rate;
     readmitted_df := readmitted_df |}.

(** ** Distribution tabs of [show_overview] *)

Definition Qltb (x y : Q) : bool := negb (Qle_bool y x).

(** [bins.searchsorted(x, side="left")] on increasing [bins]: the number of
    edges strictly below [x]. *)
Fixpoint searchsorted_left (bins : list Q) (x : Q) : nat :=
  match bins with
  | [] => O
  | e :: bins' => if Qltb e x then S (searchsorted_left bins' x) else O
  end.

(** [pd.cut(x, bins)] with the defaults [right=True, include_lowest=False],
    for one value: the code of its category, [None] for NaN.  As in pandas,
    a value gets no category when it is NaN or when its insertion point is
    [0] or [len(bins)]. *)
Definition cut (bins : list Q) (x : float) : option nat :=
  match x with
  | None => None
  | Some v =>
      let ids := searchsorted_left bins v in
      if (Nat.eqb ids (length bins) || Nat.eqb ids 0)%bool then None
      else Some (ids - 1)%nat
  end.

Definition code_eqb (c : option nat) (i : nat) : bool :=
  match c with
  | Some j => Nat.eqb j i
  | None => false
  end.

(** The code [c] denotes a category numbered from [lo] up to, not
    including, [hi]. *)
Definition code_between (lo hi : nat) (c : option nat) : bool :=
  match c with
  | Some j => (lo <=? j)%nat && (j <? hi)%nat
  | None => false
  end.

(** [cats.value_counts().sort_index().reset_index()] of a categorical
    series: one row per category, in category order, zero counts included;
    NaN is not counted. *)
Definition value_counts_sort_index (labels : list string) (codes : list (option nat))
  : list (string * nat) :=
  map (fun il => (snd il, length (filter (fun c => code_eqb c (fst il)) codes)))
      (combine (seq 0 (length labels)) labels).

Definition los_bins : list Q := [0; 2; 4; 6; 8; 10; 20]%Q.
Definition los_labels : list string := ["1–2"; "3–4"; "5–6"; "7–8"; "9–10"; "10+"]%string.

Definition med_bins : list Q := [0; 5; 10; 15; 20; 30; 50]%Q.
Definition med_labels : list string := ["0–4"; "5–9"; "10–14"; "15–19"; "20–29"; "30+"]%string.

Inductive TabOutput :=
| BarChart (dist : list (string * nat))
| TabInfo (msg : string).

(** [with tab2:] *)
Definition los_tab (df : DataFrame) : TabOutput :=
  if (0 <? length df)%nat then
    let los_codes := map (cut los_bins) (map (fun r => of_Z (time_in_hospital r)) df) in
    BarChart (value_counts_sort_index los_labels los_codes)
  else TabInfo "No data available for current filters.".

(** [with tab3:] *)
Definition poly_tab (readmitted_df : DataFrame) : TabOutput :=
  if (0 <? length readmitted_df)%nat then
    let poly_codes := map (cut med_bins) (map num_medications readmitted_df) in
    BarChart (value_counts_sort_index med_labels poly_codes)
  else TabInfo "No readmitted patients in current filters.".

(** ** Odds-ratio section of [show_overview] *)

(** The 2x2 table shown to the user: column "Polypharmacy" holds [a, b],
    column "No Polypharmacy" holds [c, d]; the first row is "Readmitted <30
    days", the second "Not readmitted <30 days". *)
Record ContTable := mkContTable {
  polypharmacy_col : Z * Z;
  no_polypharmacy_col : Z * Z
}.

Inductive OddsOutput :=
| OddsShown (or_rounded : Q) (cont_df : ContTable)
| OddsInfo (msg : string).

(** [temp["polypharmacy"]] and [temp["readmitted_30_flag"]]. *)
Definition polypharmacy (temp : DataFrame) : list bool :=
  ge_scalar (map num_medications temp) 10.

Definition readmitted_30_flag (temp : DataFrame) : list bool :=
  eq_scalar String.eqb (map readmitted temp) "<30"%string.

(** Lines 517-520: the four raw counts. *)
Definition contingency (temp : DataFrame) : Z * Z * Z * Z :=
  let p := polypharmacy temp in
  let f := readmitted_30_flag temp in
  let a := sum_bool (mask_and p f) in
  let b := sum_bool (mask_and p (mask_not f)) in
  let c := sum_bool (mask_and (mask_not p) f) in
  let d := sum_bool (mask_and (mask_not p) (mask_not f)) in
  (a, b, c, d).

Definition adj (x : Z) : Q := if 0 <? x then inject_Z x else 1 # 2.

(** The counts are [numpy.int64]; the products [a*d] and [b*c] are below
    [2^63] for every frame of fewer than [2^31] rows, so their wrap-around
    is not modelled. *)
Definition odds_ratio_section (df : DataFrame) : OddsOutput :=
  if (0 <? length df)%nat then
    let '(a, b, c, d) := contingency df in
    let a_adj := adj a in
    let b_adj := adj b in
    let c_adj := adj c in
    let d_adj := adj d in
    let odds_ratio := ((a_adj * d_adj) / (b_adj * c_adj))%Q in
    let or_rounded := round_Q odds_ratio 2 in
    OddsShown or_rounded {| polypharmacy_col := (a, b); no_polypharmacy_col := (c, d) |}
  else OddsInfo "Not enough data for odds ratio calculation under current filters.".

(** ** Vocabulary of the specification

    The definitions below follow the wording of the specification, not the
    code; the theorems compare the code above with them. *)

Module Spec.

(** "its age-group, gender, and admission-type values are each members of
    the corresponding selection set" *)
Definition row_selected (ages genders : list string) (adms : list Z) (r : Encounter) : Prop :=
  In (age_group r) ages /\ In (gender r) genders /\ In (admission_type_id r) adms.

Definition row_selectedb (ages genders : list string) (adms : list Z) (r : Encounter) : bool :=
  existsb (String.eqb (age_group r)) ages
  && existsb (String.eqb (gender r)) genders
  && existsb (Z.eqb (admission_type_id r)) adms.

(** "rows with readmitted == <30" *)
Definition readmitted_lt30 (r : Encounter) : bool := String.eqb (readmitted r) "<30".

(** "rows where readmitted is <30 or >30" *)
Definition is_readmitted (r : Encounter) : bool :=
  String.eqb (readmitted r) "<30" || String.eqb (readmitted r) ">30".

Definition readmitted_subset (df : DataFrame) : DataFrame := filter is_readmitted df.

(** "num_medications >= 10"; a missing count does not satisfy it. *)
Definition ten_or_more (r : Encounter) : bool :=
  match num_medications r with
  | Some q => Qle_bool 10 q
  | None => false
  end.


Definition count (p : Encounter -> bool) (df : DataFrame) : nat := length (filter p df).

(** count / total x 100, as an exact rational. *)
Definition percentage (part total : nat) : Q :=
  (inject_Z (Z.of_nat part) / inject_Z (Z.of_nat total) * 100)%Q.

(** Arithmetic mean of [time_in_hospital]. *)
Definition total_los (df : DataFrame) : Z :=
  fold_right (fun r acc => time_in_hospital r + acc) 0 df.

Definition mean_los (df : DataFrame) : Q :=
  (inject_Z (total_los df) / inject_Z (Z.of_nat (length df)))%Q.

(** [x] rounded to [n] decimals: an integer multiple of [10^-n] at
    distance at most half a unit in the last place. *)
Definition rounds_to (n : nat) (x y : Q) : Prop :=
  (exists k : Z, y == k # pow10 n)%Q /\ (Qabs (y - x) <= 1 # (2 * pow10 n))%Q.

(** Cell of the 2x2 table for the flag values [p] (polypharmacy) and [f]
    (readmitted within 30 days). *)
Definition cell (p f : bool) (df : DataFrame) : Z :=
  Z.of_nat (count (fun r => Bool.eqb (ten_or_more r) p && Bool.eqb (readmitted_lt30 r) f) df).

(** "any of a,b,c,d equal to zero is replaced by 0.5" *)
Definition zero_cell_corrected (x : Z) : Q := if x =? 0 then 1 # 2 else inject_Z x.

(** Bin assignment as the specification words it: bin [i] is the
    left-closed, right-open interval from edge [i] to edge [i+1]. *)
Fixpoint half_open_bin_from (i : nat) (edges : list Q) (v : Q) : option nat :=
  match edges with
  | lo :: ((hi :: _) as rest) =>
      if (Qle_bool lo v && Qltb v hi)%bool then Some i
      else half_open_bin_from (S i) rest v
  | _ => None
  end.

Definition half_open_bin (edges : list Q) (v : Q) : option nat := half_open_bin_from 0 edges v.

(** Bin assignment as the code has it: bin [i] is the left-open,
    right-closed interval from edge [i] to edge [i+1]. *)
Definition in_bin (edges : list Q) (i : nat) (v : Q) : Prop :=
  exists lo hi, nth_error edges i = Some lo /\ nth_error edges (S i) = Some hi
                /\ (lo < v)%Q /\ (v <= hi)%Q.

Definition strictly_inside (edges : list Q) (i : nat) (v : Q) : Prop :=
  exists lo hi, nth_error edges i = Some lo /\ nth_error edges (S i) = Some hi
                /\ (lo < v)%Q /\ (v < hi)%Q.

(** Bin edges are listed in increasing order. *)
Definition increasing (edges : list Q) : Prop := StronglySorted Qlt edges.

(** Number of values a distribution accounts for. *)
Definition total (dist : list (string * nat)) : nat :=
  fold_right (fun d acc => (snd d + acc)%nat) O dist.

(** Lengths of stay inside the overall range of the length-of-stay bins. *)
Definition los_in_range (r : Encounter) : bool :=
  (0 <? time_in_hospital r) && (time_in_hospital r <=? 20).

End Spec.

(** ** Sample data *)

Module Sample.

Definition enc (rd : string) (meds : float) (los : Z) : Encounter :=
  {| age_group := "[70-80)"; gender := "Female"; admission_type_id := 1;
     time_in_hospital := los; num_medications := meds; readmitted := rd |}.

Definition enc_of (age g : string) (adm : Z) : Encounter :=
  {| age_group := age; gender := g; admission_type_id := adm;
     time_in_hospital := 3; num_medications := Some 8%Q; readmitted := "NO" |}.

(** Ten encounters, three of them readmitted within 30 days. *)
Definition ten_rows : DataFrame :=
  [ enc "<30" (Some 12%Q) 3; enc "<30" NaN 4; enc "<30" (Some 9%Q) 1;
    enc ">30" (Some 10%Q) 2; enc "NO" (Some 3%Q) 5; enc "NO" (Some 3%Q) 5;
    enc "NO" (Some 14%Q) 6; enc "NO" (Some 7%Q) 2; enc "NO" (Some 21%Q) 9;
    enc "NO" (Some 30%Q) 20 ].

(** Nobody readmitted. *)
Definition no_readmission : DataFrame := [ enc "NO" (Some 4%Q) 2; enc "NO" NaN 7 ].


Definition mixed : DataFrame :=
  [ enc_of "[70-80)" "Female" 1; enc_of "[60-70)" "Male" 2;
    enc_of "[70-80)" "Male" 1; enc_of "[50-60)" "Female" 3 ].

Definition raw_dirty : RawFrame :=
  {| columns := ["age"; "gender"; "admission_type_id"; "time_in_hospital";
                 "num_medications"; "readmitted"]%string;
     records := [ mkRawRow "[70-80)" "Female" 1 4 (Text "?") "<30";
                  mkRawRow "[60-70)" "Male" 2 6 (Number 15) "NO" ] |}.

(** A stand-in number parser for the samples: it accepts nothing. *)
Definition parse_nothing (s : string) : option Q := None.

End Sample.

(** ** KPI cards and insight levels of [show_overview] *)

(** Comparisons of a float with a number; each is [False] on NaN. *)
Definition float_ltb (x : float) (k : Q) : bool :=
  match x with
  | Some a => Qltb a k
  | None => false
  end.

Definition float_leb (x : float) (k : Q) : bool :=
  match x with
  | Some a => Qle_bool a k
  | None => false
  end.

Definition float_gtb (x : float) (k : Q) : bool :=
  match x with
  | Some a => Qltb k a
  | None => false
  end.

Definition float_geb (x : float) (k : Q) : bool := geb x (Some k).

(** [min(k, x)] and [max(k, x)] of Python: the first argument is kept
    unless the second is strictly smaller (larger). *)
Definition py_min (k : Q) (x : float) : float := if float_ltb x k then x else Some k.
Definition py_max (k : Q) (x : float) : float := if float_gtb x k then x else Some k.

(** Lines 161-162 of [gauge_style]: the clamped percentage and the angle
    of the gauge in degrees. *)
Definition gauge_pct (pct : float) : float := py_max 0 (py_min 100 pct).
Definition gauge_deg (pct : float) : float := mul (gauge_pct pct) (Some (18 # 5)).

Section Gauge.

(** How an f-string prints a number; it belongs to Python, so it is a
    parameter here. *)
Variable format_float : float -> string.


End Gauge.

Definition GREEN : string := "#22c55e".
Definition RED : string := "#ef4444".
Definition BLUE : string := "#3b82f6".
Definition ORANGE : string := "#f97316".

(** Lines 286-288: KPI colors. *)
Definition readmit_color (readmission_rate : float) : string :=
  if float_ltb readmission_rate 12 then GREEN else RED.

Definition los_color (avg_los_readmitted : float) : string :=
  if float_leb avg_los_readmitted 5 then BLUE else ORANGE.

Definition poly_color (polypharmacy_rate : float) : string :=
  if float_ltb polypharmacy_rate 75 then GREEN else RED.

(** Lines 558-577: the wording of the dynamic insights. *)
Definition readmit_level (readmission_rate : float) : string :=
  if float_geb readmission_rate 12 then "elevated"
  else if float_geb readmission_rate 8 then "moderate"
  else "relatively low".

Definition los_level (avg_los_readmitted : float) : string :=
  if float_gtb avg_los_readmitted 5 then "high"
  else if float_geb avg_los_readmitted (7 # 2) then "moderate"
  else "short".

Definition poly_level (polypharmacy_rate : float) : string :=
  if float_geb polypharmacy_rate 80 then "very high"
  else if float_geb polypharmacy_rate 60 then "elevated"
  else "moderate".

(** The three gauges of the KPI cards, as angles: the length-of-stay card
    passes [avg_los_readmitted * 7]. *)
Definition readmit_gauge (kpis : KPIs) : float := gauge_deg (readmission_rate kpis).
Definition los_gauge (kpis : KPIs) : float :=
  gauge_deg (mul (avg_los_readmitted kpis) (of_Z 7)).
Definition poly_gauge (kpis : KPIs) : float := gauge_deg (polypharmacy_rate kpis).

(** ** Readmission tab of [show_overview] *)





Section ReadmissionTab.

(** The descending sort by count inside [value_counts]; pandas leaves the
    order of equal counts open, so the sort is a parameter here. *)
Variable sort_counts : list (string * Z) -> list (string * Z).



End ReadmissionTab.


(** Medication counts inside the overall range of the medication bins. *)
Definition med_in_range (r : Encounter) : bool :=
  match num_medications r with
  | Some q => Qltb 0 q && Qle_bool q 50
  | None => false
  end.

(** ** Widget keys of the sidebar *)

(** The keys of the checkboxes one run of [get_filtered_data] creates, in
    creation order (the reset button has no key). *)
Definition filter_widget_keys (ui : Sidebar) (df_raw : DataFrame) : list string :=
  let age_groups := sorted String.leb (unique String.eqb (map age_group df_raw)) in
  let genders := sorted String.leb (unique String.eqb (map gender df_raw)) in
  let adm_types := sorted Z.leb (unique Z.eqb (map admission_type_id df_raw)) in
  ("all_age"%string
   :: (if checkbox ui "Select All" "all_age" true then []
       else map (fun a => "age_" ++ a)%string age_groups))
  ++ ("all_gender"%string
      :: (if checkbox ui "Select All" "all_gender" true then []
          else map (fun g => "gender_" ++ g)%string genders))
  ++ ("all_adm"%string
      :: (if checkbox ui "Select All" "all_adm" true then []
          else map (fun a => "adm_" ++ str_Z a)%string adm_types)).

(** ** Pages *)

(** [pages/03_EDA.py]: readmission rate by age group,
    [df.assign(...).groupby("age_group")["readmitted_30"].mean()] times
    100; groups come in sorted key order. *)
Definition age_readmit (df : DataFrame) : list (string * float) :=
  map (fun a =>
         (a, mul (mean_bool
                    (eq_scalar String.eqb
                       (map readmitted (filter (fun r => String.eqb (age_group r) a) df))
                       "<30"%string))
                 (of_Z 100)))
      (sorted String.leb (unique String.eqb (map age_group df))).

Inductive EdaOutput :=
| EdaInfo (msg : string)
| EdaCharts (age_chart : list (string * float)).

(** The two histograms of the page are drawn by the chart library from
    the filtered frame itself; the page computes only the age chart. *)
Definition eda_page (ui : Sidebar) (df_raw : DataFrame) : Run EdaOutput :=
  match get_filtered_data ui df_raw with
  | Rerun state => Rerun state
  | Done df =>
      Done (match df with
            | [] => EdaInfo "No data for the current filter selection."
            | _ => EdaCharts (age_readmit df)
            end)
  end.

(** [pages/01_Overview.py]: filter, aggregate, render.  Of the rendering,
    the computed parts are kept. *)
Record Overview := mkOverview {
  ov_kpis : KPIs;
  ov_colors : string * string * string;
  ov_gauges : float * float * float;
  ov_levels : string * string * string;
  ov_los_tab : TabOutput;
  ov_poly_tab : TabOutput;
  ov_odds : OddsOutput
}.

Definition show_overview (df : DataFrame) (kpis : KPIs) : Overview :=
  {| ov_kpis := kpis;
     ov_colors := (readmit_color (readmission_rate kpis),
                   los_color (avg_los_readmitted kpis),
                   poly_color (polypharmacy_rate kpis));
     ov_gauges := (readmit_gauge kpis, los_gauge kpis, poly_gauge kpis);
     ov_levels := (readmit_level (readmission_rate kpis),
                   los_level (avg_los_readmitted kpis),
                   poly_level (polypharmacy_rate kpis));
     ov_los_tab := los_tab df;
     ov_poly_tab := poly_tab (readmitted_df kpis);
     ov_odds := odds_ratio_section df |}.

Definition overview_page (ui : Sidebar) (df_raw : DataFrame) : Run Overview :=
  match get_filtered_data ui df_raw with
  | Rerun state => Rerun state
  | Done df => Done (show_overview df (compute_kpis df))
  end.

(** * Properties *)

(** ** Masks and row selection *)

Section MaskFacts.
Context {A : Type}.
Implicit Types (l : list A) (p q : A -> bool).

Lemma loc_map l p : loc l (map p l) = filter p l.
Proof.
  induction l as [|x l IH]; simpl; [reflexivity|].
  rewrite IH. reflexivity.
Qed.

Lemma mask_and_map l p q :
  mask_and (map p l) (map q l) = map (fun x => p x && q x) l.
Proof.
  induction l as [|x l IH]; simpl; congruence.
Qed.

Lemma mask_not_map l p : mask_not (map p l) = map (fun x => negb (p x)) l.
Proof. unfold mask_not. apply map_map. Qed.

Lemma sum_bool_map l p : sum_bool (map p l) = Z.of_nat (length (filter p l)).
Proof.
  unfold sum_bool.
  induction l as [|x l IH]; [reflexivity|].
  cbn [map fold_right filter]. rewrite IH.
  destruct (p x); cbn [length]; lia.
Qed.

Lemma isin_map {B : Type} (eqb : B -> B -> bool) (f : A -> B) l values :
  isin eqb (map f l) values = map (fun x => existsb (eqb (f x)) values) l.
Proof. unfold isin. apply map_map. Qed.

Lemma eq_scalar_map {B : Type} (eqb : B -> B -> bool) (f : A -> B) l v :
  eq_scalar eqb (map f l) v = map (fun x => eqb (f x) v) l.
Proof. unfold eq_scalar. apply map_map. Qed.

Lemma filter_length_mono l p q :
  (forall x, In x l -> p x = true -> q x = true) ->
  (length (filter p l) <= length (filter q l))%nat.
Proof.
  induction l as [|x l IH]; intros Hpq; simpl; [lia|].
  assert (Hl : (length (filter p l) <= length (filter q l))%nat).
  { apply IH. intros y Hy. apply Hpq. right. exact Hy. }
  destruct (p x) eqn:Hp.
  - rewrite (Hpq x (or_introl eq_refl) Hp). simpl. lia.
  - destruct (q x); simpl; lia.
Qed.

End MaskFacts.

Lemma existsb_string_In (x : string) (values : list string) :
  existsb (String.eqb x) values = true <-> In x values.
Proof.
  rewrite existsb_exists. split.
  - intros (y & Hy & Heq). apply String.eqb_eq in Heq. subst. exact Hy.
  - intros H. exists x. split; [exact H|apply String.eqb_refl].
Qed.

Lemma existsb_Z_In (x : Z) (values : list Z) :
  existsb (Z.eqb x) values = true <-> In x values.
Proof.
  rewrite existsb_exists. split.
  - intros (y & Hy & Heq). apply Z.eqb_eq in Heq. subst. exact Hy.
  - intros H. exists x. split; [exact H|apply Z.eqb_refl].
Qed.

Lemma row_selectedb_iff ages genders adms r :
  Spec.row_selectedb ages genders adms r = true <-> Spec.row_selected ages genders adms r.
Proof.
  unfold Spec.row_selectedb, Spec.row_selected.
  rewrite !andb_true_iff, !existsb_string_In, existsb_Z_In. tauto.
Qed.

Lemma apply_filters_filter df ages genders adms :
  apply_filters df ages genders adms = filter (Spec.row_selectedb ages genders adms) df.
Proof.
  unfold apply_filters.
  rewrite !isin_map, !mask_and_map.
  apply loc_map.
Qed.

Section SelectionLists.
Context {A : Type}.
Variable eqb : A -> A -> bool.
Hypothesis eqb_eq : forall x y, eqb x y = true <-> x = y.

Lemma insert_sorted_In (leb : A -> A -> bool) (x y : A) (l : list A) :
  In y (insert_sorted leb x l) <-> y = x \/ In y l.
Proof.
  induction l as [|z l IH]; simpl.
  - intuition congruence.
  - destruct (leb x z); simpl; rewrite ?IH; intuition congruence.
Qed.

Lemma sorted_In (leb : A -> A -> bool) (y : A) (l : list A) :
  In y (sorted leb l) <-> In y l.
Proof.
  unfold sorted. induction l as [|x l IH]; simpl; [tauto|].
  rewrite insert_sorted_In, IH. intuition congruence.
Qed.

Lemma unique_from_In (y : A) (l seen : list A) :
  In y (fold_left (fun seen x => if existsb (eqb x) seen then seen else seen ++ [x]) l seen)
  <-> In y seen \/ In y l.
Proof.
  revert seen. induction l as [|x l IH]; intros seen; simpl; [tauto|].
  rewrite IH. destruct (existsb (eqb x) seen) eqn:E.
  - apply existsb_exists in E. destruct E as (z & Hz & Hxz).
    apply eqb_eq in Hxz. subst z. intuition congruence.
  - rewrite in_app_iff. simpl. intuition congruence.
Qed.

Lemma unique_In (y : A) (l : list A) : In y (unique eqb l) <-> In y l.
Proof. unfold unique. rewrite unique_from_In. simpl. tauto. Qed.

Lemma isin_all_values {B : Type} (f : B -> A) (leb : A -> A -> bool) (df : list B) :
  loc df (isin eqb (map f df) (sorted leb (unique eqb (map f df)))) = df
  /\ forall r, In r df -> existsb (eqb (f r)) (sorted leb (unique eqb (map f df))) = true.
Proof.
  assert (H : forall r, In r df ->
                        existsb (eqb (f r)) (sorted leb (unique eqb (map f df))) = true).
  { intros r Hr. apply existsb_exists. exists (f r). split.
    - apply sorted_In, unique_In, in_map. exact Hr.
    - apply eqb_eq. reflexivity. }
  split; [|exact H].
  rewrite isin_map, loc_map.
  induction df as [|r df IH]; [reflexivity|].
  apply forallb_filter_id. apply forallb_forall. exact H.
Qed.

End SelectionLists.

(** What the sidebar hands to the filter: unless the reset button restarts
    the script, the result is the raw frame filtered by three selections
    drawn from the values present in it; with every widget untouched, all
    values are selected and the whole frame is returned. *)
Lemma get_filtered_data_done (ui : Sidebar) (df_raw df : DataFrame) :
  get_filtered_data ui df_raw = Done df ->
  reset_clicked ui = false
  /\ exists ages genders adms,
       incl ages (map age_group df_raw)
       /\ incl genders (map gender df_raw)
       /\ incl adms (map admission_type_id df_raw)
       /\ df = apply_filters df_raw ages genders adms.
Proof.
  unfold get_filtered_data.
  destruct (reset_clicked ui); [discriminate|].
  intros H. injection H as <-. split; [reflexivity|].
  do 3 eexists. split; [|split; [|split; [|reflexivity]]].
  - intros x Hx. destruct (checkbox ui "Select All" "all_age" true);
      [|apply filter_In in Hx; destruct Hx as [Hx _]];
      apply (proj1 (sorted_In _ _ _)) in Hx;
      apply (proj1 (unique_In _ String.eqb_eq _ _)) in Hx; exact Hx.
  - intros x Hx. destruct (checkbox ui "Select All" "all_gender" true);
      [|apply filter_In in Hx; destruct Hx as [Hx _]];
      apply (proj1 (sorted_In _ _ _)) in Hx;
      apply (proj1 (unique_In _ String.eqb_eq _ _)) in Hx; exact Hx.
  - intros x Hx. destruct (checkbox ui "Select All" "all_adm" true);
      [|apply filter_In in Hx; destruct Hx as [Hx _]];
      apply (proj1 (sorted_In _ _ _)) in Hx;
      apply (proj1 (unique_In _ Z.eqb_eq _ _)) in Hx; exact Hx.
Qed.

Lemma get_filtered_data_untouched (df_raw : DataFrame) :
  get_filtered_data {| reset_clicked := false; session_state := fun _ => None |} df_raw
  = Done df_raw.
Proof.
  unfold get_filtered_data, checkbox. cbn [reset_clicked session_state].
  f_equal. rewrite apply_filters_filter.
  apply forallb_filter_id. apply forallb_forall. intros r Hr.
  unfold Spec.row_selectedb.
  rewrite (proj2 (isin_all_values String.eqb String.eqb_eq age_group String.leb df_raw) r Hr).
  rewrite (proj2 (isin_all_values String.eqb String.eqb_eq gender String.leb df_raw) r Hr).
  rewrite (proj2 (isin_all_values Z.eqb Z.eqb_eq admission_type_id Z.leb df_raw) r Hr).
  reflexivity.
Qed.

(** C1. The filtered frame consists of exactly the rows of the dataset
    (same order, same multiplicity) whose age group, gender and admission
    type each belong to the corresponding selection; if the selection of
    any one dimension is empty, the filtered frame is empty. *)
Theorem filter_retains_exactly_selected_rows :
  forall (df : DataFrame) (ages genders : list string) (adms : list Z),
    apply_filters df ages genders adms = filter (Spec.row_selectedb ages genders adms) df
    /\ (forall r, Spec.row_selectedb ages genders adms r = true
                  <-> Spec.row_selected ages genders adms r)
    /\ (forall r, In r (apply_filters df ages genders adms)
                  <-> In r df /\ Spec.row_selected ages genders adms r)
    /\ apply_filters df [] genders adms = []
    /\ apply_filters df ages [] adms = []
    /\ apply_filters df ages genders [] = []
    /\ (forall ui df', get_filtered_data ui df = Done df' ->
                       exists ages' genders' adms',
                         df' = apply_filters df ages' genders' adms').
Proof.
  intros df ages genders adms.
  split; [apply apply_filters_filter|].
  split; [intros r; apply row_selectedb_iff|].
  assert (Hempty : forall p : Encounter -> bool,
             (forall r, p r = false) -> filter p df = []).
  { intros p Hp. induction df as [|x l IH]; [reflexivity|].
    simpl. rewrite Hp. exact IH. }
  split.
  { intros r. rewrite apply_filters_filter, filter_In, row_selectedb_iff. tauto. }
  rewrite !apply_filters_filter.
  split; [apply Hempty; intros r; reflexivity|].
  split.
  { apply Hempty. intros r. unfold Spec.row_selectedb. simpl.
    rewrite andb_false_r. reflexivity. }
  split.
  { apply Hempty. intros r. unfold Spec.row_selectedb. simpl.
    rewrite andb_false_r. reflexivity. }
  intros ui df' H. apply get_filtered_data_done in H.
  destruct H as (_ & a & g & t & _ & _ & _ & H). exists a, g, t. exact H.
Qed.

Lemma filter_retains_exactly_selected_rows_witness :
  apply_filters Sample.mixed ["[70-80)"; "[60-70)"]%string ["Male"%string] [1; 2]
  = [Sample.enc_of "[60-70)" "Male" 2; Sample.enc_of "[70-80)" "Male" 1]
  /\ apply_filters Sample.mixed ["[70-80)"; "[60-70)"]%string [] [1; 2] = [].
Proof.
  destruct (filter_retains_exactly_selected_rows
              Sample.mixed ["[70-80)"; "[60-70)"]%string ["Male"%string] [1; 2])
    as (Hf & _ & _ & _ & Hg & _).
  split; [rewrite Hf; reflexivity|exact Hg].
Defined.

(** C9. Shrinking the selection of any dimension never enlarges the
    filtered frame: if each set of the second selection is included in the
    corresponding set of the first, the second filtered frame has at most
    as many rows as the first. *)
Theorem filter_size_monotone :
  forall (df : DataFrame) (ages1 genders1 ages2 genders2 : list string) (adms1 adms2 : list Z),
    incl ages2 ages1 -> incl genders2 genders1 -> incl adms2 adms1 ->
    (length (apply_filters df ages2 genders2 adms2)
     <= length (apply_filters df ages1 genders1 adms1))%nat.
Proof.
  intros df ages1 genders1 ages2 genders2 adms1 adms2 Ha Hg Ht.
  rewrite !apply_filters_filter.
  apply filter_length_mono.
  intros r _. rewrite !row_selectedb_iff.
  intros (H1 & H2 & H3). repeat split; auto.
Qed.

Lemma filter_size_monotone_witness :
  incl ["[70-80)"%string] ["[70-80)"; "[60-70)"]%string
  /\ (length (apply_filters Sample.mixed ["[70-80)"%string] ["Male"%string] [1%Z])
      <= length (apply_filters Sample.mixed ["[70-80)"; "[60-70)"]%string
                               ["Male"; "Female"]%string [1%Z; 2%Z]))%nat.
Proof.
  split.
  - intros x [Hx|[]]. left. exact Hx.
  - apply (filter_size_monotone Sample.mixed).
    + intros x [Hx|[]]. left. exact Hx.
    + intros x [Hx|[]]. left. exact Hx.
    + intros x [Hx|[]]. left. exact Hx.
Defined.

(** ** Rounding *)

Lemma rint_close (x : Q) : (Qabs (inject_Z (rint x) - x) <= 1 # 2)%Q.
Proof.
  unfold rint. cbv zeta.
  pose proof (Qfloor_le x) as Hlo.
  pose proof (Qlt_floor x) as Hhi.
  rewrite inject_Z_plus in Hhi.
  apply Qabs_Qle_condition.
  destruct (x - inject_Z (Qfloor x) ?= 1 # 2)%Q eqn:Hc;
    [apply Qeq_alt in Hc; destruct (Z.even (Qfloor x))
    |apply Qlt_alt in Hc|apply Qgt_alt in Hc];
    rewrite ?inject_Z_plus; change (inject_Z 1) with 1%Q in *;
    generalize dependent (inject_Z (Qfloor x)); intros f Hlo Hhi Hc;
    split; lra.
Qed.

Lemma round_Q_rounds_to (x : Q) (n : nat) : Spec.rounds_to n x (round_Q x n).
Proof.
  unfold Spec.rounds_to, round_Q.
  set (p := pow10 n).
  set (k := rint (x * inject_Z (Z.pos p))).
  split.
  - exists k. apply Qred_correct.
  - rewrite Qred_correct.
    pose proof (rint_close (x * inject_Z (Z.pos p))) as Hk. fold k in Hk.
    apply Qabs_Qle_condition in Hk. apply Qabs_Qle_condition.
    assert (Hp : (0 < 1 # p)%Q) by reflexivity.
    assert (Hkp : (k # p == inject_Z k * (1 # p))%Q).
    { unfold Qeq, Qmult, inject_Z. simpl. lia. }
    assert (Hx : (x == x * inject_Z (Z.pos p) * (1 # p))%Q).
    { rewrite <- Qmult_assoc.
      assert (H1 : (inject_Z (Z.pos p) * (1 # p) == 1)%Q).
      { unfold Qeq, Qmult, inject_Z. simpl. lia. }
      rewrite H1. ring. }
    assert (Hh : (1 # 2 * p == (1 # 2) * (1 # p))%Q).
    { unfold Qeq, Qmult. simpl. lia. }
    rewrite Hh, Hkp.
    set (y := (x * inject_Z (Z.pos p))%Q) in *.
    set (u := (1 # p)%Q) in *.
    assert (E1 : (inject_Z k * u - x == (inject_Z k - y) * u)%Q).
    { rewrite Hx at 1. ring. }
    rewrite E1.
    destruct Hk as [Hk1 Hk2]. split.
    + setoid_replace (- ((1 # 2) * u))%Q with ((- (1 # 2)) * u)%Q by ring.
      apply Qmult_le_compat_r; [exact Hk1|apply Qlt_le_weak; exact Hp].
    + apply Qmult_le_compat_r; [exact Hk2|apply Qlt_le_weak; exact Hp].
Qed.

(** ** KPI aggregator *)

Lemma mean_of_pos (total : Z) (n : nat) :
  (0 < n)%nat -> mean_of total n = Some (inject_Z total / inject_Z (Z.of_nat n))%Q.
Proof. destruct n; [lia|reflexivity]. Qed.

Lemma ltb_length_pos {A : Type} (l : list A) : (0 < length l)%nat -> (0 <? length l)%nat = true.
Proof. intros H. apply Nat.ltb_lt. exact H. Qed.

Lemma readmitted_mask (df : DataFrame) :
  loc df (isin String.eqb (map readmitted df) ["<30"; ">30"]%string)
  = Spec.readmitted_subset df.
Proof.
  rewrite isin_map.
  rewrite (map_ext _ Spec.is_readmitted); [apply loc_map|].
  intros r. unfold Spec.is_readmitted. simpl. rewrite orb_false_r. reflexivity.
Qed.

Lemma compute_kpis_readmitted_df (df : DataFrame) :
  readmitted_df (compute_kpis df) = Spec.readmitted_subset df.
Proof.
  unfold compute_kpis. rewrite readmitted_mask.
  destruct (0 <? length (Spec.readmitted_subset df))%nat; reflexivity.
Qed.

Lemma compute_kpis_readmission_rate (df : DataFrame) :
  (0 < length df)%nat ->
  readmission_rate (compute_kpis df)
  = Some (round_Q (Spec.percentage (Spec.count Spec.readmitted_lt30 df) (length df)) 1).
Proof.
  intros Hn. unfold compute_kpis.
  destruct (0 <? length (loc df _))%nat; cbn [readmission_rate];
    rewrite (ltb_length_pos df Hn), eq_scalar_map;
    unfold mean_bool; rewrite sum_bool_map, length_map, (mean_of_pos _ _ Hn);
    reflexivity.
Qed.

Lemma sum_Z_time_in_hospital (df : DataFrame) :
  sum_Z (map time_in_hospital df) = Spec.total_los df.
Proof. induction df as [|r df IH]; simpl; congruence. Qed.

Lemma compute_kpis_avg_los (df : DataFrame) :
  (0 < length (Spec.readmitted_subset df))%nat ->
  avg_los_readmitted (compute_kpis df)
  = Some (round_Q (Spec.mean_los (Spec.readmitted_subset df)) 1).
Proof.
  intros Hn. unfold compute_kpis.
  rewrite readmitted_mask.
  rewrite (ltb_length_pos _ Hn). cbn [avg_los_readmitted].
  unfold mean_Z. rewrite sum_Z_time_in_hospital, length_map, (mean_of_pos _ _ Hn).
  reflexivity.
Qed.

Lemma ge_scalar_num_medications (df : DataFrame) :
  ge_scalar (map num_medications df) 10 = map Spec.ten_or_more df.
Proof.
  unfold ge_scalar. rewrite map_map. apply map_ext.
  intros r. unfold Spec.ten_or_more, geb, of_Z.
  destruct (num_medications r); reflexivity.
Qed.

Lemma compute_kpis_polypharmacy_rate (df : DataFrame) :
  (0 < length (Spec.readmitted_subset df))%nat ->
  polypharmacy_rate (compute_kpis df)
  = Some (round_Q (Spec.percentage (Spec.count Spec.ten_or_more (Spec.readmitted_subset df))
                                   (length (Spec.readmitted_subset df))) 1).
Proof.
  intros Hn. unfold compute_kpis.
  rewrite readmitted_mask.
  rewrite (ltb_length_pos _ Hn). cbn [polypharmacy_rate].
  rewrite ge_scalar_num_medications.
  unfold mean_bool. rewrite sum_bool_map, length_map, (mean_of_pos _ _ Hn).
  reflexivity.
Qed.

Lemma compute_kpis_no_readmitted (df : DataFrame) :
  Spec.readmitted_subset df = [] ->
  avg_los_readmitted (compute_kpis df) = Some 0%Q
  /\ polypharmacy_rate (compute_kpis df) = Some 0%Q.
Proof.
  intros He. unfold compute_kpis.
  rewrite readmitted_mask.
  rewrite He. split; reflexivity.
Qed.


Lemma is_readmitted_iff (r : Encounter) :
  Spec.is_readmitted r = true
  <-> readmitted r = "<30"%string \/ readmitted r = ">30"%string.
Proof.
  unfold Spec.is_readmitted. rewrite orb_true_iff, !String.eqb_eq. tauto.
Qed.

Lemma count_ignores_rows_outside (p q : Encounter -> bool) (df : DataFrame) :
  (forall r, p r = true -> q r = true) ->
  Spec.count p (filter q df) = Spec.count p df.
Proof.
  intros Hpq. unfold Spec.count.
  induction df as [|r df IH]; simpl; [reflexivity|].
  destruct (q r) eqn:Hq; simpl.
  - destruct (p r); simpl; congruence.
  - destruct (p r) eqn:Hp; [|exact IH].
    rewrite (Hpq r Hp) in Hq. discriminate.
Qed.





(** C4. The readmitted subset kept by [compute_kpis] consists of exactly
    the rows whose [readmitted] value is "<30" or ">30" (never "NO"); when
    it is non-empty, the average length of stay is the arithmetic mean of
    [time_in_hospital] over it, rounded to one decimal. *)
Theorem readmitted_subset_and_average_stay :
  forall df : DataFrame,
    let rs := readmitted_df (compute_kpis df) in
    rs = filter Spec.is_readmitted df
    /\ (forall r, In r rs
                  <-> In r df /\ (readmitted r = "<30"%string \/ readmitted r = ">30"%string))
    /\ (forall r, In r rs -> readmitted r <> "NO"%string)
    /\ ((0 < length rs)%nat ->
        avg_los_readmitted (compute_kpis df) = Some (round_Q (Spec.mean_los rs) 1)
        /\ Spec.rounds_to 1 (Spec.mean_los rs) (round_Q (Spec.mean_los rs) 1)).
Proof.
  intros df rs. subst rs. rewrite compute_kpis_readmitted_df.
  split; [reflexivity|].
  split; [|split].
  - intros r. unfold Spec.readmitted_subset.
    rewrite filter_In, is_readmitted_iff. tauto.
  - intros r Hr. unfold Spec.readmitted_subset in Hr.
    apply filter_In in Hr. destruct Hr as [_ Hr].
    apply is_readmitted_iff in Hr. destruct Hr as [Hr|Hr]; rewrite Hr; discriminate.
  - intros Hn. split; [apply compute_kpis_avg_los; exact Hn|apply round_Q_rounds_to].
Qed.

Lemma readmitted_subset_and_average_stay_witness :
  (0 < length (readmitted_df (compute_kpis Sample.ten_rows)))%nat
  /\ avg_los_readmitted (compute_kpis Sample.ten_rows) = Some (5 # 2)%Q.
Proof.
  assert (H : (0 < length (readmitted_df (compute_kpis Sample.ten_rows)))%nat)
    by (vm_compute; lia).
  split; [exact H|].
  destruct (readmitted_subset_and_average_stay Sample.ten_rows) as (_ & _ & _ & Havg).
  destruct (Havg H) as [Hr _].
  rewrite Hr. reflexivity.
Defined.

(** ** Contingency table and odds ratio *)

Lemma contingency_cells (df : DataFrame) :
  contingency df
  = (Spec.cell true true df, Spec.cell true false df,
     Spec.cell false true df, Spec.cell false false df).
Proof.
  unfold contingency, polypharmacy, readmitted_30_flag.
  rewrite ge_scalar_num_medications, eq_scalar_map, !mask_not_map, !mask_and_map.
  rewrite !sum_bool_map. unfold Spec.cell, Spec.count, Spec.readmitted_lt30.
  assert (E : forall p q : Encounter -> bool,
             (forall r, p r = q r) ->
             Z.of_nat (length (filter p df)) = Z.of_nat (length (filter q df))).
  { intros p q H. rewrite (filter_ext _ _ H). reflexivity. }
  repeat match goal with |- (_, _) = (_, _) => f_equal end;
    apply E; intros r;
    destruct (Spec.ten_or_more r), (String.eqb (readmitted r) "<30"); reflexivity.
Qed.

Lemma cell_cons (p f : bool) (r : Encounter) (df : DataFrame) :
  Spec.cell p f (r :: df)
  = (if Bool.eqb (Spec.ten_or_more r) p && Bool.eqb (Spec.readmitted_lt30 r) f
     then 1 else 0) + Spec.cell p f df.
Proof.
  unfold Spec.cell, Spec.count. cbn [filter].
  destruct (Bool.eqb (Spec.ten_or_more r) p && Bool.eqb (Spec.readmitted_lt30 r) f);
    cbn [length]; lia.
Qed.

Lemma cell_app (p f : bool) (df1 df2 : DataFrame) :
  Spec.cell p f (df1 ++ df2) = Spec.cell p f df1 + Spec.cell p f df2.
Proof.
  unfold Spec.cell, Spec.count. rewrite filter_app, length_app. lia.
Qed.

Lemma cell_nonneg (p f : bool) (df : DataFrame) : 0 <= Spec.cell p f df.
Proof. unfold Spec.cell. lia. Qed.

Lemma cells_partition (df : DataFrame) :
  Spec.cell true true df + Spec.cell true false df
  + Spec.cell false true df + Spec.cell false false df
  = Z.of_nat (length df).
Proof.
  induction df as [|r df IH]; [reflexivity|].
  rewrite !cell_cons. cbn [length].
  destruct (Spec.ten_or_more r), (Spec.readmitted_lt30 r); cbn [Bool.eqb andb]; lia.
Qed.

Lemma adj_zero_cell_corrected (x : Z) : 0 <= x -> adj x = Spec.zero_cell_corrected x.
Proof.
  intros Hx. unfold adj, Spec.zero_cell_corrected.
  destruct (Z.ltb_spec 0 x), (Z.eqb_spec x 0); try reflexivity; lia.
Qed.


Lemma odds_ratio_section_cells (df : DataFrame) :
  (0 < length df)%nat ->
  odds_ratio_section df
  = OddsShown
      (round_Q (Spec.zero_cell_corrected (Spec.cell true true df)
                * Spec.zero_cell_corrected (Spec.cell false false df)
                / (Spec.zero_cell_corrected (Spec.cell true false df)
                   * Spec.zero_cell_corrected (Spec.cell false true df))) 2)
      {| polypharmacy_col := (Spec.cell true true df, Spec.cell true false df);
         no_polypharmacy_col := (Spec.cell false true df, Spec.cell false false df) |}.
Proof.
  intros Hn. unfold odds_ratio_section.
  rewrite (ltb_length_pos df Hn), contingency_cells.
  rewrite !adj_zero_cell_corrected by apply cell_nonneg.
  reflexivity.
Qed.



(** C8. The four raw counts of the contingency table add up to the number
    of rows of the frame they are built from: every row, also one with a
    missing medication count, falls in exactly one cell. *)
Theorem contingency_counts_sum_to_size :
  forall df : DataFrame,
    let '(a, b, c, d) := contingency df in
    a + b + c + d = Z.of_nat (length df)
    /\ 0 <= a /\ 0 <= b /\ 0 <= c /\ 0 <= d
    /\ (forall or_rounded cont_df,
           odds_ratio_section df = OddsShown or_rounded cont_df ->
           fst (polypharmacy_col cont_df) + snd (polypharmacy_col cont_df)
           + fst (no_polypharmacy_col cont_df) + snd (no_polypharmacy_col cont_df)
           = Z.of_nat (length df)).
Proof.
  intros df. rewrite contingency_cells.
  split; [apply cells_partition|].
  repeat (split; [apply cell_nonneg|]).
  intros o t Hs. unfold odds_ratio_section in Hs.
  destruct (0 <? length df)%nat; [|discriminate].
  rewrite contingency_cells in Hs. injection Hs as _ <-.
  apply cells_partition.
Qed.

Lemma contingency_counts_sum_to_size_witness :
  contingency Sample.ten_rows = (1, 4, 2, 3)
  /\ 1 + 4 + 2 + 3 = Z.of_nat (length Sample.ten_rows).
Proof.
  split; [reflexivity|].
  pose proof (contingency_counts_sum_to_size Sample.ten_rows) as H.
  change (contingency Sample.ten_rows) with (1, 4, 2, 3) in H.
  exact (proj1 H).
Defined.

Lemma ten_or_more_missing (r : Encounter) :
  num_medications r = NaN -> Spec.ten_or_more r = false.
Proof. intros H. unfold Spec.ten_or_more. rewrite H. reflexivity. Qed.

Lemma contingency_insert_missing (r : Encounter) (before after : DataFrame) :
  num_medications r = NaN ->
  contingency (before ++ r :: after)
  = (let '(a, b, c, d) := contingency (before ++ after) in
     if String.eqb (readmitted r) "<30" then (a, b, c + 1, d) else (a, b, c, d + 1)).
Proof.
  intros Hr. rewrite !contingency_cells.
  rewrite !cell_app, !cell_cons, (ten_or_more_missing r Hr).
  unfold Spec.readmitted_lt30.
  destruct (String.eqb (readmitted r) "<30"); cbn [Bool.eqb andb];
    repeat match goal with |- (_, _) = (_, _) => f_equal end; lia.
Qed.

(** C10. A row whose medication count did not load as a number (text that
    is not a number, or an empty cell, coerced to NaN by [load_data]) has
    its polypharmacy flag false.  In any frame that contains it, it is
    counted in cell c (readmitted within 30 days) or cell d (otherwise) of
    the contingency table, and the four counts still add up to the number
    of rows. *)
Theorem missing_medication_count_lands_in_c_or_d :
  forall (parse_number : string -> option Q) (raw : RawFrame) (df : DataFrame)
         (row : RawRow),
    load_data parse_number raw = Loaded df ->
    In row (records raw) ->
    (raw_num_medications row = Missing
     \/ exists s, raw_num_medications row = Text s /\ parse_number s = None) ->
    let r := load_row parse_number row in
    In r df
    /\ num_medications r = NaN
    /\ polypharmacy [r] = [false]
    /\ forall before after : DataFrame,
         contingency (before ++ r :: after)
         = (let '(a, b, c, d) := contingency (before ++ after) in
            if String.eqb (readmitted r) "<30" then (a, b, c + 1, d) else (a, b, c, d + 1))
         /\ (let '(a, b, c, d) := contingency (before ++ r :: after) in
             a + b + c + d = Z.of_nat (length (before ++ r :: after))).
Proof.
  intros parse_number raw df row Hload Hin Hcell r.
  assert (Hnan : num_medications r = NaN).
  { subst r. cbn [load_row num_medications]. unfold to_numeric_coerce.
    destruct Hcell as [-> | (s & -> & Hs)]; [reflexivity|exact Hs]. }
  split.
  { unfold load_data in Hload.
    destruct (negb (existsb (String.eqb "num_medications") (columns raw)));
      [discriminate|].
    injection Hload as <-. apply in_map. exact Hin. }
  split; [exact Hnan|].
  split.
  { unfold polypharmacy, ge_scalar. cbn [map]. rewrite Hnan. reflexivity. }
  intros before after. split.
  - apply contingency_insert_missing. exact Hnan.
  - rewrite contingency_cells. apply cells_partition.
Qed.

Lemma missing_medication_count_lands_in_c_or_d_witness :
  load_data Sample.parse_nothing Sample.raw_dirty
  = Loaded (map (load_row Sample.parse_nothing) (records Sample.raw_dirty))
  /\ contingency
       (Sample.no_readmission
        ++ load_row Sample.parse_nothing (mkRawRow "[70-80)" "Female" 1 4 (Text "?") "<30")
        :: Sample.ten_rows)
     = (1, 4, 3, 5).
Proof.
  split; [reflexivity|].
  assert (Hld : load_data Sample.parse_nothing Sample.raw_dirty
                = Loaded (map (load_row Sample.parse_nothing) (records Sample.raw_dirty)))
    by reflexivity.
  assert (Hin : In (mkRawRow "[70-80)" "Female" 1 4 (Text "?") "<30")
                   (records Sample.raw_dirty)) by (simpl; left; reflexivity).
  assert (Hc : raw_num_medications (mkRawRow "[70-80)" "Female" 1 4 (Text "?") "<30") = Missing
               \/ exists s, raw_num_medications
                              (mkRawRow "[70-80)" "Female" 1 4 (Text "?") "<30") = Text s
                            /\ Sample.parse_nothing s = None).
  { right. exists "?"%string. split; reflexivity. }
  destruct (missing_medication_count_lands_in_c_or_d
              Sample.parse_nothing Sample.raw_dirty _ _ Hld Hin Hc) as (_ & _ & _ & Hcount).
  destruct (Hcount Sample.no_readmission Sample.ten_rows) as [Heq _].
  rewrite Heq. reflexivity.
Defined.

(** ** Empty subsets *)

(** C7. Nothing fails on an empty subset.  For the empty frame the three
    KPIs are exactly 0.0; for a frame without readmitted rows the average
    stay and the polypharmacy rate are exactly 0.0; on every frame each KPI
    is a number.  The odds-ratio section and both distribution tabs show an
    information message instead of computing on an empty frame. *)
Theorem empty_subsets_give_zero_or_message :
  compute_kpis []
  = {| readmission_rate := Some 0%Q; avg_los_readmitted := Some 0%Q;
       polypharmacy_rate := Some 0%Q; readmitted_df := [] |}
  /\ (forall df, readmitted_df (compute_kpis df) = [] ->
                 avg_los_readmitted (compute_kpis df) = Some 0%Q
                 /\ polypharmacy_rate (compute_kpis df) = Some 0%Q)
  /\ (forall df, readmission_rate (compute_kpis df) <> NaN
                 /\ avg_los_readmitted (compute_kpis df) <> NaN
                 /\ polypharmacy_rate (compute_kpis df) <> NaN)
  /\ odds_ratio_section []
     = OddsInfo "Not enough data for odds ratio calculation under current filters."
  /\ los_tab [] = TabInfo "No data available for current filters."
  /\ poly_tab [] = TabInfo "No readmitted patients in current filters.".
Proof.
  split; [reflexivity|].
  split.
  { intros df He. rewrite compute_kpis_readmitted_df in He.
    apply compute_kpis_no_readmitted. exact He. }
  split; [|repeat split].
  intros df. split; [|split].
  - destruct df as [|r df]; [discriminate|].
    rewrite compute_kpis_readmission_rate by (simpl; lia). discriminate.
  - destruct (Spec.readmitted_subset df) as [|r rs] eqn:He.
    + destruct (compute_kpis_no_readmitted df He) as [-> _]. discriminate.
    + rewrite compute_kpis_avg_los by (rewrite He; simpl; lia). discriminate.
  - destruct (Spec.readmitted_subset df) as [|r rs] eqn:He.
    + destruct (compute_kpis_no_readmitted df He) as [_ ->]. discriminate.
    + rewrite compute_kpis_polypharmacy_rate by (rewrite He; simpl; lia). discriminate.
Qed.

Lemma empty_subsets_give_zero_or_message_witness :
  readmitted_df (compute_kpis Sample.no_readmission) = []
  /\ avg_los_readmitted (compute_kpis Sample.no_readmission) = Some 0%Q
  /\ polypharmacy_rate (compute_kpis Sample.no_readmission) = Some 0%Q.
Proof.
  assert (H : readmitted_df (compute_kpis Sample.no_readmission) = []) by reflexivity.
  split; [exact H|].
  destruct empty_subsets_give_zero_or_message as (_ & Hz & _).
  exact (Hz Sample.no_readmission H).
Defined.

(** ** Binning *)

Lemma Qltb_lt (x y : Q) : Qltb x y = true <-> (x < y)%Q.
Proof.
  unfold Qltb. rewrite negb_true_iff, <- not_true_iff_false, Qle_bool_iff.
  split; [apply Qnot_le_lt|apply Qlt_not_le].
Qed.

Lemma Qltb_ge (x y : Q) : Qltb x y = false <-> (y <= x)%Q.
Proof.
  unfold Qltb. rewrite negb_false_iff. apply Qle_bool_iff.
Qed.

Section SearchSorted.
Variable v : Q.

Lemma searchsorted_left_length (bins : list Q) :
  (searchsorted_left bins v <= length bins)%nat.
Proof.
  induction bins as [|e bins IH]; simpl; [lia|].
  destruct (Qltb e v); lia.
Qed.

Lemma searchsorted_left_below (bins : list Q) :
  forall j e, (j < searchsorted_left bins v)%nat -> nth_error bins j = Some e -> (e < v)%Q.
Proof.
  induction bins as [|e0 bins IH]; simpl; intros j e Hj He; [lia|].
  destruct (Qltb e0 v) eqn:Hlt; [|lia].
  destruct j as [|j]; simpl in He.
  - injection He as <-. apply Qltb_lt. exact Hlt.
  - apply (IH j); [lia|exact He].
Qed.

Lemma searchsorted_left_above (bins : list Q) :
  Spec.increasing bins ->
  forall j e, (searchsorted_left bins v <= j)%nat -> nth_error bins j = Some e -> (v <= e)%Q.
Proof.
  induction 1 as [|e0 bins Hs IH Hall]; simpl; intros j e Hj He.
  - destruct j; discriminate.
  - destruct (Qltb e0 v) eqn:Hlt.
    + destruct j as [|j]; [lia|]. simpl in He. apply (IH j); [lia|exact He].
    + apply Qltb_ge in Hlt.
      destruct j as [|j]; simpl in He.
      * injection He as <-. exact Hlt.
      * apply nth_error_In in He. rewrite Forall_forall in Hall.
        apply Qlt_le_weak. apply Qle_lt_trans with e0; [exact Hlt|apply Hall; exact He].
Qed.

End SearchSorted.

Lemma cut_in_bin (bins : list Q) (v : Q) (i : nat) :
  Spec.increasing bins ->
  cut bins (Some v) = Some i <-> Spec.in_bin bins i v.
Proof.
  intros Hs. unfold cut, Spec.in_bin.
  pose proof (searchsorted_left_length v bins) as Hlen.
  pose proof (searchsorted_left_below v bins) as Hlo.
  pose proof (searchsorted_left_above v bins Hs) as Hhi.
  set (ids := searchsorted_left bins v) in *.
  split.
  - destruct (Nat.eqb_spec ids (length bins)) as [|Hn]; [discriminate|].
    destruct (Nat.eqb_spec ids 0) as [|Hz]; [discriminate|].
    cbn [orb]. intros Hi. injection Hi as Hi.
    destruct (nth_error bins i) as [lo|] eqn:Elo;
      [|apply nth_error_None in Elo; lia].
    destruct (nth_error bins (S i)) as [hi|] eqn:Ehi;
      [|apply nth_error_None in Ehi; lia].
    exists lo, hi. repeat split.
    + apply (Hlo i); [lia|exact Elo].
    + apply (Hhi (S i)); [lia|exact Ehi].
  - intros (lo & hi & Elo & Ehi & Hlt & Hle).
    assert (Hi : ids = S i).
    { destruct (Nat.lt_trichotomy ids (S i)) as [Hc|[Hc|Hc]]; [|exact Hc|].
      - exfalso. apply (Qlt_not_le _ _ Hlt). apply (Hhi i); [lia|exact Elo].
      - exfalso. apply (Qlt_not_le hi v); [|exact Hle]. apply (Hlo (S i)); [lia|exact Ehi]. }
    assert (Hb : (S i < length bins)%nat).
    { apply nth_error_Some. rewrite Ehi. discriminate. }
    rewrite Hi.
    destruct (Nat.eqb_spec (S i) (length bins)) as [Hc|_]; [lia|].
    cbn [Nat.eqb orb]. f_equal. lia.
Qed.

Lemma in_bin_unique (bins : list Q) (v : Q) (i j : nat) :
  Spec.increasing bins -> Spec.in_bin bins i v -> Spec.in_bin bins j v -> i = j.
Proof.
  intros Hs Hi Hj.
  apply (cut_in_bin bins v _ Hs) in Hi. apply (cut_in_bin bins v _ Hs) in Hj.
  congruence.
Qed.

Lemma strictly_inside_in_bin (bins : list Q) (v : Q) (i : nat) :
  Spec.strictly_inside bins i v -> Spec.in_bin bins i v.
Proof.
  intros (lo & hi & Elo & Ehi & H1 & H2).
  exists lo, hi. repeat split; try assumption. apply Qlt_le_weak. exact H2.
Qed.

Lemma los_bins_increasing : Spec.increasing los_bins.
Proof.
  unfold Spec.increasing, los_bins.
  repeat (constructor; [|repeat (constructor; [reflexivity|]); constructor]).
  constructor.
Qed.

Lemma med_bins_increasing : Spec.increasing med_bins.
Proof.
  unfold Spec.increasing, med_bins.
  repeat (constructor; [|repeat (constructor; [reflexivity|]); constructor]).
  constructor.
Qed.

Lemma cut_los_none (v : Q) :
  cut los_bins (Some v) = None <-> (v <= 0)%Q \/ (20 < v)%Q.
Proof.
  unfold cut, los_bins, searchsorted_left.
  repeat match goal with
         | |- context [Qltb ?a v] =>
             let H := fresh "H" in
             destruct (Qltb a v) eqn:H;
             [apply Qltb_lt in H|apply Qltb_ge in H]
         end;
    cbn [Nat.eqb orb length Nat.sub];
    (split; [intros E; try discriminate E; lra
            |intros [E|E]; try reflexivity; exfalso; lra]).
Qed.

Section ValueCounts.
Variable codes : list (option nat).

Lemma count_code_step (s n : nat) :
  (length (filter (fun c => code_eqb c s) codes)
   + length (filter (code_between (S s) (S s + n)) codes)
   = length (filter (code_between s (s + S n)) codes))%nat.
Proof.
  induction codes as [|c cs IH]; [reflexivity|].
  cbn [filter].
  assert (E : code_between s (s + S n) c
              = (code_eqb c s || code_between (S s) (S s + n) c)%bool).
  { destruct c as [j|]; [|reflexivity]. simpl.
    destruct (Nat.eqb_spec j s), (Nat.leb_spec s j), (Nat.ltb_spec j (s + S n));
      destruct j as [|j]; simpl;
      try destruct (Nat.leb_spec s j); try destruct (Nat.ltb_spec (S j) (S (s + n)));
      try destruct (Nat.ltb_spec 0 (S (s + n)));
      try reflexivity; lia. }
  rewrite E.
  destruct (code_eqb c s) eqn:E1, (code_between (S s) (S s + n) c) eqn:E2;
    cbn [orb length]; try lia.
  exfalso. destruct c as [j|]; [|discriminate]. simpl in E1, E2.
  apply Nat.eqb_eq in E1. subst j.
  apply andb_true_iff in E2. destruct E2 as [E2 _].
  destruct s; [discriminate|]. apply Nat.leb_le in E2. lia.
Qed.

Lemma value_counts_from (labels : list string) :
  forall s,
    Spec.total
      (map (fun il => (snd il, length (filter (fun c => code_eqb c (fst il)) codes)))
           (combine (seq s (length labels)) labels))
    = length (filter (code_between s (s + length labels)) codes).
Proof.
  induction labels as [|l labels IH]; intros s.
  - simpl. rewrite Nat.add_0_r.
    induction codes as [|c cs IHc]; [reflexivity|].
    cbn [filter].
    assert (E : code_between s s c = false).
    { destruct c as [j|]; [|reflexivity]. simpl.
      destruct (Nat.leb_spec s j), (Nat.ltb_spec j s); try reflexivity; lia. }
    rewrite E. exact IHc.
  - cbn [length seq combine map Spec.total fold_right fst snd].
    fold (Spec.total
            (map (fun il => (snd il, length (filter (fun c => code_eqb c (fst il)) codes)))
                 (combine (seq (S s) (length labels)) labels))).
    rewrite IH. apply count_code_step.
Qed.

Lemma value_counts_labels (labels : list string) :
  map fst (value_counts_sort_index labels codes) = labels.
Proof.
  unfold value_counts_sort_index. rewrite map_map. cbn [fst].
  generalize 0%nat.
  induction labels as [|l labels IH]; intros s; [reflexivity|].
  cbn [length seq combine map snd]. rewrite IH. reflexivity.
Qed.

Lemma value_counts_total (labels : list string) :
  Spec.total (value_counts_sort_index labels codes)
  = length (filter (code_between 0 (length labels)) codes).
Proof. unfold value_counts_sort_index. apply value_counts_from. Qed.

End ValueCounts.

Lemma cut_los_code_in_range (z : Z) :
  code_between 0 (length los_labels) (cut los_bins (of_Z z))
  = ((0 <? z) && (z <=? 20))%bool.
Proof.
  destruct (cut los_bins (of_Z z)) as [i|] eqn:Hc.
  - unfold of_Z in Hc.
    assert (Hi : (i < 6)%nat).
    { apply (cut_in_bin _ _ _ los_bins_increasing) in Hc.
      destruct Hc as (lo & hi & _ & Ehi & _).
      assert (H : (S i < length los_bins)%nat)
        by (apply nth_error_Some; rewrite Ehi; discriminate).
      simpl in H. lia. }
    assert (Hr : ~ ((inject_Z z <= 0)%Q \/ (20 < inject_Z z)%Q)).
    { rewrite <- cut_los_none, Hc. discriminate. }
    cbn [code_between length los_labels Nat.leb andb].
    destruct (Nat.ltb_spec i 6); [|lia].
    symmetry. apply andb_true_iff. split.
    + apply Z.ltb_lt. destruct (Z.lt_ge_cases 0 z) as [|Hz]; [assumption|].
      exfalso. apply Hr. left. unfold Qle, inject_Z. simpl. lia.
    + apply Z.leb_le. destruct (Z.le_gt_cases z 20) as [|Hz]; [assumption|].
      exfalso. apply Hr. right. unfold Qlt, inject_Z. simpl. lia.
  - unfold of_Z in Hc. apply cut_los_none in Hc. cbn [code_between].
    symmetry. apply andb_false_iff.
    destruct Hc as [Hc|Hc]; unfold Qle, Qlt, inject_Z in Hc; simpl in Hc.
    + left. apply Z.ltb_ge. lia.
    + right. apply Z.leb_gt. lia.
Qed.

Lemma los_tab_distribution (df : DataFrame) :
  (0 < length df)%nat ->
  exists dist,
    los_tab df = BarChart dist
    /\ map fst dist = los_labels
    /\ Spec.total dist = Spec.count Spec.los_in_range df.
Proof.
  intros Hn. unfold los_tab. rewrite (ltb_length_pos df Hn).
  eexists. split; [reflexivity|]. split; [apply value_counts_labels|].
  rewrite value_counts_total, !map_map. unfold Spec.count.
  clear Hn. induction df as [|x l IHl]; [reflexivity|].
  cbn [map filter]. rewrite cut_los_code_in_range.
  fold (Spec.los_in_range x).
  destruct (Spec.los_in_range x); cbn [length]; rewrite IHl; reflexivity.
Qed.

(** C6, as the specification states it, fails: with left-closed, right-open
    bins a stay of 2 days would fall in the second bin, a stay of 20 days
    in none and a stay of 0 days in the first, whereas the code puts 2 in
    the first bin, 20 in the last and leaves 0 out. *)
Lemma half_open_binning_counterexample :
  cut los_bins (of_Z 2) = Some 0%nat
  /\ Spec.half_open_bin los_bins 2 = Some 1%nat
  /\ cut los_bins (of_Z 20) = Some 5%nat
  /\ Spec.half_open_bin los_bins 20 = None
  /\ cut los_bins (of_Z 0) = None
  /\ Spec.half_open_bin los_bins 0 = Some 0%nat
  /\ ~ (forall v : Q, cut los_bins (Some v) = Spec.half_open_bin los_bins v).
Proof.
  repeat (split; [reflexivity|]).
  intros H. specialize (H 2%Q). discriminate H.
Qed.

(** C6, amended.  In the length-of-stay distribution a value [v] is given
    bin [i] exactly when edge [i] < v <= edge [i+1]: the intervals (0,2],
    (2,4], (4,6], (6,8], (8,10], (10,20] are left-open and right-closed, so
    a boundary value belongs to the bin it closes, 0 is excluded and 20 is
    included.  A value has at most one bin, and exactly one when
    0 < v <= 20; a value outside (0,20] has none and is left out of the
    counts, the chart being produced all the same.  In the medication
    distribution a value strictly between two consecutive edges is given
    the bin of those edges.  A missing value has no bin. *)
Theorem binning_is_left_open_right_closed :
  (forall v i, cut los_bins (Some v) = Some i <-> Spec.in_bin los_bins i v)
  /\ (forall v i j, Spec.in_bin los_bins i v -> Spec.in_bin los_bins j v -> i = j)
  /\ (forall v, cut los_bins (Some v) = None <-> (v <= 0)%Q \/ (20 < v)%Q)
  /\ (forall v, (0 < v)%Q -> (v <= 20)%Q -> exists i, cut los_bins (Some v) = Some i)
  /\ (forall v i, Spec.strictly_inside med_bins i v -> cut med_bins (Some v) = Some i)
  /\ (forall bins, cut bins NaN = None)
  /\ (forall df : DataFrame,
         (0 < length df)%nat ->
         exists dist,
           los_tab df = BarChart dist
           /\ map fst dist = los_labels
           /\ Spec.total dist = Spec.count Spec.los_in_range df).
Proof.
  split; [intros v i; apply cut_in_bin, los_bins_increasing|].
  split; [intros v i j; apply in_bin_unique, los_bins_increasing|].
  split; [apply cut_los_none|].
  split.
  { intros v H0 H20. destruct (cut los_bins (Some v)) as [i|] eqn:Hc.
    - exists i. reflexivity.
    - apply cut_los_none in Hc. exfalso. destruct Hc; lra. }
  split.
  { intros v i Hin. apply (cut_in_bin _ _ _ med_bins_increasing).
    apply strictly_inside_in_bin. exact Hin. }
  split; [reflexivity|].
  apply los_tab_distribution.
Qed.

Lemma binning_is_left_open_right_closed_witness :
  Spec.in_bin los_bins 0 2 /\ cut los_bins (Some 2%Q) = Some 0%nat.
Proof.
  assert (H : Spec.in_bin los_bins 0 2).
  { exists 0%Q, 2%Q. repeat split; try reflexivity. unfold Qle. simpl. lia. }
  split; [exact H|].
  destruct binning_is_left_open_right_closed as (Hcut & _).
  apply Hcut. exact H.
Defined.

(** The medication bins are cut the same way, so ten medications are shown
    under "5–9" and none under "0–4", although ten medications already
    count as polypharmacy. *)
Example ten_medications_bin :
  cut med_bins (Some 10%Q) = Some 1%nat
  /\ nth_error med_labels 1 = Some "5–9"%string
  /\ cut med_bins (Some 0%Q) = None
  /\ geb (Some 10%Q) (of_Z 10) = true.
Proof. repeat split. Qed.

(** Lengths of stay 1, 3, 5, 9, 15 are spread as 1, 1, 1, 0, 1, 1 over the
    six bins. *)
Example los_distribution_example :
  los_tab (map (Sample.enc "NO" NaN) [1; 3; 5; 9; 15])
  = BarChart [("1–2", 1); ("3–4", 1); ("5–6", 1); ("7–8", 0); ("9–10", 1); ("10+", 1)]%nat%string.
Proof. reflexivity. Qed.

(** * Further properties of the code *)

(** ** More on rounding *)

Lemma rint_compat (x y : Q) : (x == y)%Q -> rint x = rint y.
Proof.
  intros E. unfold rint. cbv zeta.
  rewrite (Qfloor_comp _ _ E).
  assert (Ec : (x - inject_Z (Qfloor y) ?= 1 # 2)%Q = (y - inject_Z (Qfloor y) ?= 1 # 2)%Q).
  { apply Qcompare_comp; [rewrite E; reflexivity|reflexivity]. }
  rewrite Ec. reflexivity.
Qed.

Lemma round_Q_compat (x y : Q) (n : nat) : (x == y)%Q -> round_Q x n = round_Q y n.
Proof.
  intros E. unfold round_Q. f_equal. f_equal.
  apply rint_compat. rewrite E. reflexivity.
Qed.

Lemma rint_inject_Z (k : Z) : rint (inject_Z k) = k.
Proof.
  unfold rint. cbv zeta. rewrite Qfloor_Z.
  assert (E : (inject_Z k - inject_Z k ?= 1 # 2)%Q = Lt).
  { apply (proj1 (Qlt_alt _ _)). generalize (inject_Z k). intros q. lra. }
  rewrite E. reflexivity.
Qed.

Lemma rint_bounds (x : Q) :
  Qfloor x <= rint x <= Qfloor x + 1.
Proof.
  unfold rint. cbv zeta.
  destruct (x - inject_Z (Qfloor x) ?= 1 # 2)%Q; [destruct (Z.even (Qfloor x))| |]; lia.
Qed.

Lemma rint_monotone (x y : Q) : (x <= y)%Q -> rint x <= rint y.
Proof.
  intros Hxy.
  pose proof (Qfloor_resp_le _ _ Hxy) as Hf.
  destruct (Z.eq_dec (Qfloor x) (Qfloor y)) as [E|N].
  - unfold rint. cbv zeta. rewrite E.
    destruct (Qcompare_spec (x - inject_Z (Qfloor y)) (1 # 2)) as [Cx|Cx|Cx];
      destruct (Qcompare_spec (y - inject_Z (Qfloor y)) (1 # 2)) as [Cy|Cy|Cy];
      try destruct (Z.even (Qfloor y)); try lia; exfalso;
      generalize dependent (inject_Z (Qfloor y)); intros; lra.
  - pose proof (rint_bounds x). pose proof (rint_bounds y). lia.
Qed.

Lemma round_Q_monotone (x y : Q) (n : nat) :
  (x <= y)%Q -> (round_Q x n <= round_Q y n)%Q.
Proof.
  intros Hxy. unfold round_Q. rewrite !Qred_correct.
  unfold Qle. cbn [Qnum Qden].
  apply Z.mul_le_mono_nonneg_r; [lia|].
  apply rint_monotone.
  apply Qmult_le_compat_r; [exact Hxy|]. unfold Qle, inject_Z. simpl. lia.
Qed.

Lemma round_Q_inject_Z (k : Z) (n : nat) : (round_Q (inject_Z k) n == inject_Z k)%Q.
Proof.
  unfold round_Q. rewrite Qred_correct.
  rewrite <- inject_Z_mult, rint_inject_Z.
  unfold Qeq, inject_Z. cbn [Qnum Qden]. lia.
Qed.

Lemma round_Q_between (lo hi : Z) (x : Q) (n : nat) :
  (inject_Z lo <= x)%Q -> (x <= inject_Z hi)%Q ->
  (inject_Z lo <= round_Q x n)%Q /\ (round_Q x n <= inject_Z hi)%Q.
Proof.
  intros Hlo Hhi. split.
  - rewrite <- (round_Q_inject_Z lo n). apply round_Q_monotone. exact Hlo.
  - rewrite <- (round_Q_inject_Z hi n). apply round_Q_monotone. exact Hhi.
Qed.

Lemma percentage_bounds (part total : nat) :
  (part <= total)%nat -> (0 < total)%nat ->
  (inject_Z 0 <= Spec.percentage part total)%Q
  /\ (Spec.percentage part total <= inject_Z 100)%Q.
Proof.
  intros Hle Hpos. unfold Spec.percentage.
  assert (Ht : (0 < inject_Z (Z.of_nat total))%Q).
  { unfold Qlt, inject_Z. simpl. lia. }
  assert (Hp : (0 <= inject_Z (Z.of_nat part))%Q).
  { unfold Qle, inject_Z. simpl. lia. }
  assert (Hpt : (inject_Z (Z.of_nat part) <= inject_Z (Z.of_nat total))%Q).
  { unfold Qle, inject_Z. simpl. lia. }
  assert (Hd0 : (0 <= inject_Z (Z.of_nat part) / inject_Z (Z.of_nat total))%Q).
  { apply Qle_shift_div_l; [exact Ht|]. lra. }
  assert (Hd1 : (inject_Z (Z.of_nat part) / inject_Z (Z.of_nat total) <= 1)%Q).
  { apply Qle_shift_div_r; [exact Ht|]. lra. }
  change (inject_Z 0) with 0%Q. change (inject_Z 100) with 100%Q.
  split; lra.
Qed.

(** ** KPI ranges and consistency *)

Lemma count_le_length (p : Encounter -> bool) (df : DataFrame) :
  (Spec.count p df <= length df)%nat.
Proof. unfold Spec.count. apply filter_length_le. Qed.

Lemma readmitted_subset_idempotent (df : DataFrame) :
  Spec.readmitted_subset (Spec.readmitted_subset df) = Spec.readmitted_subset df.
Proof.
  unfold Spec.readmitted_subset.
  apply forallb_filter_id. apply forallb_forall.
  intros r Hr. apply filter_In in Hr. tauto.
Qed.

Lemma kpis_of_readmitted_subset (df : DataFrame) :
  avg_los_readmitted (compute_kpis df)
  = match Spec.readmitted_subset df with
    | [] => Some 0%Q
    | rs => Some (round_Q (Spec.mean_los rs) 1)
    end
  /\ polypharmacy_rate (compute_kpis df)
     = match Spec.readmitted_subset df with
       | [] => Some 0%Q
       | rs => Some (round_Q (Spec.percentage (Spec.count Spec.ten_or_more rs) (length rs)) 1)
       end.
Proof.
  destruct (Spec.readmitted_subset df) as [|r rs] eqn:E.
  - apply compute_kpis_no_readmitted. exact E.
  - rewrite <- E. split.
    + apply compute_kpis_avg_los. rewrite E. simpl. lia.
    + apply compute_kpis_polypharmacy_rate. rewrite E. simpl. lia.
Qed.

Lemma kpi_rates_bounds :
  forall df : DataFrame,
  exists r p : Q,
    readmission_rate (compute_kpis df) = Some r
    /\ polypharmacy_rate (compute_kpis df) = Some p
    /\ (0 <= r)%Q /\ (r <= 100)%Q /\ (0 <= p)%Q /\ (p <= 100)%Q.
Proof.
  intros df.
  assert (Hr : exists r, readmission_rate (compute_kpis df) = Some r
                         /\ (0 <= r)%Q /\ (r <= 100)%Q).
  { destruct df as [|x df].
    - exists 0%Q. repeat split; [apply Qle_refl|discriminate].
    - eexists. split; [apply compute_kpis_readmission_rate; simpl; lia|].
      apply (round_Q_between 0 100).
      + apply percentage_bounds; [apply count_le_length|simpl; lia].
      + apply percentage_bounds; [apply count_le_length|simpl; lia]. }
  assert (Hp : exists p, polypharmacy_rate (compute_kpis df) = Some p
                         /\ (0 <= p)%Q /\ (p <= 100)%Q).
  { destruct (kpis_of_readmitted_subset df) as [_ Hp]. rewrite Hp.
    destruct (Spec.readmitted_subset df) as [|x rs].
    - exists 0%Q. repeat split; [apply Qle_refl|discriminate].
    - eexists. split; [reflexivity|].
      apply (round_Q_between 0 100).
      + apply percentage_bounds; [apply count_le_length|simpl; lia].
      + apply percentage_bounds; [apply count_le_length|simpl; lia]. }
  destruct Hr as (r & Hr & Hr0 & Hr1). destruct Hp as (p & Hp & Hp0 & Hp1).
  exists r, p. repeat split; assumption.
Qed.

(** The readmission rate and the polypharmacy rate of every frame are
    numbers between 0 and 100. *)
Theorem kpi_rates_between_0_and_100 :
  forall df : DataFrame,
  exists r p : Q,
    readmission_rate (compute_kpis df) = Some r
    /\ polypharmacy_rate (compute_kpis df) = Some p
    /\ (0 <= r)%Q /\ (r <= 100)%Q /\ (0 <= p)%Q /\ (p <= 100)%Q.
Proof. exact kpi_rates_bounds. Qed.

Lemma total_los_bounds (lo hi : Z) (df : DataFrame) :
  (forall r, In r df -> lo <= time_in_hospital r <= hi) ->
  lo * Z.of_nat (length df) <= Spec.total_los df <= hi * Z.of_nat (length df).
Proof.
  induction df as [|x df IH]; intros H; [simpl; lia|].
  assert (Hx := H x (or_introl eq_refl)).
  assert (Hd : lo * Z.of_nat (length df) <= Spec.total_los df <= hi * Z.of_nat (length df)).
  { apply IH. intros r Hr. apply H. right. exact Hr. }
  cbn [Spec.total_los fold_right length]. fold (Spec.total_los df). lia.
Qed.

Lemma mean_los_bounds (lo hi : Z) (df : DataFrame) :
  (0 < length df)%nat ->
  (forall r, In r df -> lo <= time_in_hospital r <= hi) ->
  (inject_Z lo <= Spec.mean_los df)%Q /\ (Spec.mean_los df <= inject_Z hi)%Q.
Proof.
  intros Hn H. pose proof (total_los_bounds lo hi df H) as [H1 H2].
  unfold Spec.mean_los.
  assert (Ht : (0 < inject_Z (Z.of_nat (length df)))%Q).
  { unfold Qlt, inject_Z. simpl. lia. }
  split.
  - apply Qle_shift_div_l; [exact Ht|].
    rewrite <- inject_Z_mult. rewrite <- Zle_Qle. exact H1.
  - apply Qle_shift_div_r; [exact Ht|].
    rewrite <- inject_Z_mult. rewrite <- Zle_Qle. exact H2.
Qed.

(** The average length of stay is always a number.  It is 0 when no row is
    readmitted; otherwise it lies between the shortest and the longest stay
    of the readmitted rows, rounding included. *)
Theorem average_stay_within_stays :
  forall (df : DataFrame) (lo hi : Z),
    (forall r, In r (readmitted_df (compute_kpis df)) -> lo <= time_in_hospital r <= hi) ->
    exists v : Q,
      avg_los_readmitted (compute_kpis df) = Some v
      /\ (readmitted_df (compute_kpis df) = [] -> v = 0%Q)
      /\ (readmitted_df (compute_kpis df) <> [] ->
          (inject_Z lo <= v)%Q /\ (v <= inject_Z hi)%Q).
Proof.
  intros df lo hi H. rewrite compute_kpis_readmitted_df in *.
  destruct (kpis_of_readmitted_subset df) as [Ha _]. rewrite Ha.
  destruct (Spec.readmitted_subset df) as [|x rs] eqn:E.
  - exists 0%Q. split; [reflexivity|]. split; [reflexivity|]. intros N. contradiction.
  - eexists. split; [reflexivity|]. split; [discriminate|]. intros _.
    apply round_Q_between; apply (mean_los_bounds lo hi); try exact H; simpl; lia.
Qed.

Lemma average_stay_within_stays_witness :
  exists v : Q,
    avg_los_readmitted (compute_kpis Sample.ten_rows) = Some v
    /\ (inject_Z 1 <= v)%Q /\ (v <= inject_Z 4)%Q.
Proof.
  assert (H : forall r, In r (readmitted_df (compute_kpis Sample.ten_rows)) ->
                        1 <= time_in_hospital r <= 4).
  { intros r Hr. simpl in Hr.
    repeat (destruct Hr as [<-|Hr]; [simpl; lia|]). destruct Hr. }
  destruct (average_stay_within_stays Sample.ten_rows 1 4 H) as (v & Hv & _ & Hb).
  exists v. split; [exact Hv|]. apply Hb. discriminate.
Defined.






(** The readmitted subset is never larger than the frame and contains
    every row readmitted within 30 days.  Aggregating the readmitted subset
    again changes nothing: it is its own readmitted subset, with the same
    average stay and the same polypharmacy rate. *)
Theorem kpis_of_readmitted_subset_are_stable :
  forall df : DataFrame,
    let rs := readmitted_df (compute_kpis df) in
    (length rs <= length df)%nat
    /\ (Spec.count Spec.readmitted_lt30 df <= length rs)%nat
    /\ Spec.count Spec.readmitted_lt30 rs = Spec.count Spec.readmitted_lt30 df
    /\ readmitted_df (compute_kpis rs) = rs
    /\ avg_los_readmitted (compute_kpis rs) = avg_los_readmitted (compute_kpis df)
    /\ polypharmacy_rate (compute_kpis rs) = polypharmacy_rate (compute_kpis df).
Proof.
  intros df rs. subst rs. rewrite !compute_kpis_readmitted_df.
  assert (Hc : Spec.count Spec.readmitted_lt30 (Spec.readmitted_subset df)
               = Spec.count Spec.readmitted_lt30 df).
  { apply count_ignores_rows_outside. intros r Hr.
    unfold Spec.readmitted_lt30 in Hr. unfold Spec.is_readmitted.
    rewrite Hr. reflexivity. }
  split; [apply filter_length_le|].
  split; [rewrite <- Hc; apply count_le_length|].
  split; [exact Hc|].
  split; [apply readmitted_subset_idempotent|].
  destruct (kpis_of_readmitted_subset df) as [Ha Hp].
  destruct (kpis_of_readmitted_subset (Spec.readmitted_subset df)) as [Ha' Hp'].
  rewrite readmitted_subset_idempotent in Ha', Hp'.
  rewrite Ha, Hp, Ha', Hp'. split; reflexivity.
Qed.

(** ** Composition of filters *)

Lemma filter_commute {A : Type} (p q : A -> bool) (l : list A) :
  filter p (filter q l) = filter q (filter p l).
Proof.
  induction l as [|x l IH]; [reflexivity|].
  simpl. destruct (p x) eqn:Hp, (q x) eqn:Hq; simpl; rewrite ?Hp, ?Hq, IH; reflexivity.
Qed.

Lemma filter_twice {A : Type} (p : A -> bool) (l : list A) :
  filter p (filter p l) = filter p l.
Proof.
  apply forallb_filter_id. apply forallb_forall.
  intros x Hx. apply filter_In in Hx. tauto.
Qed.

Lemma filter_ext_on {A : Type} (p q : A -> bool) (l : list A) :
  (forall x, In x l -> p x = q x) -> filter p l = filter q l.
Proof.
  induction l as [|x l IH]; intros H; [reflexivity|].
  simpl. rewrite (H x (or_introl eq_refl)), IH; [reflexivity|].
  intros y Hy. apply H. right. exact Hy.
Qed.

(** Filters compose: filtering an already filtered frame gives the same
    frame in either order, filtering twice by the same selection is
    filtering once, and the readmitted subset of a filtered frame is the
    filtered readmitted subset. *)
Theorem filters_commute_and_are_idempotent :
  forall (df : DataFrame) (ages1 genders1 ages2 genders2 : list string)
         (adms1 adms2 : list Z),
    apply_filters (apply_filters df ages1 genders1 adms1) ages2 genders2 adms2
    = apply_filters (apply_filters df ages2 genders2 adms2) ages1 genders1 adms1
    /\ apply_filters (apply_filters df ages1 genders1 adms1) ages1 genders1 adms1
       = apply_filters df ages1 genders1 adms1
    /\ readmitted_df (compute_kpis (apply_filters df ages1 genders1 adms1))
       = apply_filters (readmitted_df (compute_kpis df)) ages1 genders1 adms1.
Proof.
  intros. rewrite !compute_kpis_readmitted_df, !apply_filters_filter.
  unfold Spec.readmitted_subset.
  split; [apply filter_commute|]. split; [apply filter_twice|apply filter_commute].
Qed.

(** Only membership of the values that occur in the frame matters to the
    filter: two selections that agree on them (whatever the order, the
    repetitions or the extra values) give the same filtered frame. *)
Theorem filter_depends_on_membership_only :
  forall (df : DataFrame) (ages1 genders1 ages2 genders2 : list string)
         (adms1 adms2 : list Z),
    (forall r, In r df -> (In (age_group r) ages1 <-> In (age_group r) ages2)) ->
    (forall r, In r df -> (In (gender r) genders1 <-> In (gender r) genders2)) ->
    (forall r, In r df -> (In (admission_type_id r) adms1 <-> In (admission_type_id r) adms2)) ->
    apply_filters df ages1 genders1 adms1 = apply_filters df ages2 genders2 adms2.
Proof.
  intros df a1 g1 a2 g2 t1 t2 Ha Hg Ht.
  rewrite !apply_filters_filter. apply filter_ext_on.
  intros r Hr.
  destruct (Spec.row_selectedb a1 g1 t1 r) eqn:E1, (Spec.row_selectedb a2 g2 t2 r) eqn:E2;
    try reflexivity; exfalso.
  - apply row_selectedb_iff in E1. apply not_true_iff_false in E2. apply E2.
    apply row_selectedb_iff. destruct E1 as (H1 & H2 & H3).
    repeat split; [apply (Ha r Hr)|apply (Hg r Hr)|apply (Ht r Hr)]; assumption.
  - apply row_selectedb_iff in E2. apply not_true_iff_false in E1. apply E1.
    apply row_selectedb_iff. destruct E2 as (H1 & H2 & H3).
    repeat split; [apply (Ha r Hr)|apply (Hg r Hr)|apply (Ht r Hr)]; assumption.
Qed.

Lemma filter_depends_on_membership_only_witness :
  apply_filters Sample.mixed ["[70-80)"; "[60-70)"]%string ["Male"%string] [1; 2]
  = apply_filters Sample.mixed ["[60-70)"; "[70-80)"; "[60-70)"; "[0-10)"]%string
                  ["Male"; "Other"]%string [2; 1; 7].
Proof.
  apply filter_depends_on_membership_only;
    intros r Hr; simpl in Hr;
    repeat (destruct Hr as [<-|Hr]; [simpl; intuition discriminate|]); destruct Hr.
Defined.

(** ** Sidebar: reset, select-all and widget keys *)


Lemma append_inj_r (p s t : string) : (p ++ s = p ++ t)%string -> s = t.
Proof.
  induction p as [|c p IH]; simpl; intros H; [exact H|].
  injection H as H. apply IH. exact H.
Qed.

Lemma str_Z_inj (a b : Z) : str_Z a = str_Z b -> a = b.
Proof.
  unfold str_Z. intros H.
  assert (Hn : forall z, Z.to_int z <> Decimal.Pos Decimal.Nil
                         /\ Z.to_int z <> Decimal.Neg Decimal.Nil).
  { intros [|p|p]; simpl; split; try discriminate;
      intros E; injection E as E; exact (DecimalPos.Unsigned.to_uint_nonnil p E). }
  apply DecimalZ.to_int_inj.
  assert (E : Some (Z.to_int a) = Some (Z.to_int b)).
  { rewrite <- (NilZero.isi (Z.to_int a)) by apply Hn.
    rewrite <- (NilZero.isi (Z.to_int b)) by apply Hn.
    rewrite H. reflexivity. }
  injection E as E. exact E.
Qed.


Lemma filter_none {A : Type} (p : A -> bool) (l : list A) :
  (forall x, In x l -> p x = false) -> filter p l = [].
Proof.
  induction l as [|x l IH]; intros H; [reflexivity|].
  simpl. rewrite (H x (or_introl eq_refl)). apply IH.
  intros y Hy. apply H. right. exact Hy.
Qed.






Lemma apply_filters_empty_selection (df : DataFrame) (ages genders : list string)
      (adms : list Z) :
  ages = [] \/ genders = [] \/ adms = [] ->
  apply_filters df ages genders adms = [].
Proof.
  intros H. rewrite apply_filters_filter. apply filter_none.
  intros r _. unfold Spec.row_selectedb.
  destruct H as [->|[->| ->]]; simpl; rewrite ?andb_false_r; reflexivity.
Qed.

Lemma get_filtered_data_nothing_ticked (ui : Sidebar) (df_raw : DataFrame) :
  reset_clicked ui = false ->
  (checkbox ui "Select All" "all_age" true = false
   /\ forall a, checkbox ui a ("age_" ++ a) false = false)
  \/ (checkbox ui "Select All" "all_gender" true = false
      /\ forall g, checkbox ui g ("gender_" ++ g) false = false)
  \/ (checkbox ui "Select All" "all_adm" true = false
      /\ forall a, checkbox ui (admission_label a) ("adm_" ++ str_Z a) false = false) ->
  get_filtered_data ui df_raw = Done [].
Proof.
  intros Hr H. unfold get_filtered_data. rewrite Hr. cbv zeta. f_equal.
  apply apply_filters_empty_selection.
  destruct H as [[H1 H2]|[[H1 H2]|[H1 H2]]]; rewrite H1.
  - left. apply filter_none. intros a _. apply H2.
  - right. left. apply filter_none. intros g _. apply H2.
  - right. right. apply filter_none. intros a _. apply H2.
Qed.

(** When "Select All" of some dimension is off and none of its boxes is
    ticked, every row is filtered out and the pages stay usable: the
    Overview shows 0.0 for the three KPIs with the calm colors and the
    lowest insight levels, an information message in the two distribution
    tabs and in the odds-ratio section, and the EDA page shows its
    information message instead of charts. *)
Theorem nothing_ticked_gives_empty_pages :
  forall (ui : Sidebar) (df_raw : DataFrame),
    reset_clicked ui = false ->
    (checkbox ui "Select All" "all_age" true = false
     /\ forall a, checkbox ui a ("age_" ++ a) false = false)
    \/ (checkbox ui "Select All" "all_gender" true = false
        /\ forall g, checkbox ui g ("gender_" ++ g) false = false)
    \/ (checkbox ui "Select All" "all_adm" true = false
        /\ forall a, checkbox ui (admission_label a) ("adm_" ++ str_Z a) false = false) ->
    get_filtered_data ui df_raw = Done []
    /\ eda_page ui df_raw = Done (EdaInfo "No data for the current filter selection.")
    /\ exists ov : Overview,
         overview_page ui df_raw = Done ov
         /\ ov_kpis ov
            = {| readmission_rate := Some 0%Q; avg_los_readmitted := Some 0%Q;
                 polypharmacy_rate := Some 0%Q; readmitted_df := [] |}
         /\ ov_colors ov = (GREEN, BLUE, GREEN)
         /\ ov_levels ov = ("relatively low", "short", "moderate")%string
         /\ ov_los_tab ov = TabInfo "No data available for current filters."
         /\ ov_poly_tab ov = TabInfo "No readmitted patients in current filters."
         /\ ov_odds ov
            = OddsInfo "Not enough data for odds ratio calculation under current filters.".
Proof.
  intros ui df_raw Hr H.
  pose proof (get_filtered_data_nothing_ticked ui df_raw Hr H) as E.
  split; [exact E|]. unfold eda_page, overview_page. rewrite E.
  split; [reflexivity|].
  eexists. split; [reflexivity|]. repeat split.
Qed.

Lemma nothing_ticked_gives_empty_pages_witness :
  get_filtered_data
    {| reset_clicked := false;
       session_state := fun key => if String.eqb key "all_gender" then Some false else None |}
    Sample.mixed
  = Done [].
Proof.
  apply nothing_ticked_gives_empty_pages.
  - reflexivity.
  - right. left. split; [reflexivity|].
    intros g. unfold checkbox. cbn [session_state]. simpl. reflexivity.
Defined.

Section ChoiceLists.
Context {A : Type}.
Variable eqb : A -> A -> bool.
Hypothesis eqb_eq : forall x y, eqb x y = true <-> x = y.
Variable leb : A -> A -> bool.
Hypothesis leb_total : forall x y, leb x y = true \/ leb y x = true.

Lemma unique_from_NoDup (l seen : list A) :
  NoDup seen ->
  NoDup (fold_left (fun seen x => if existsb (eqb x) seen then seen else seen ++ [x]) l seen).
Proof.
  revert seen. induction l as [|x l IH]; intros seen Hs; simpl; [exact Hs|].
  apply IH. destruct (existsb (eqb x) seen) eqn:E; [exact Hs|].
  apply NoDup_app; [exact Hs|constructor; [intros []|constructor]|].
  intros a Ha [Hx|[]]. subst a.
  apply not_true_iff_false in E. apply E. apply existsb_exists.
  exists x. split; [exact Ha|]. apply eqb_eq. reflexivity.
Qed.

Lemma unique_NoDup (l : list A) : NoDup (unique eqb l).
Proof. apply unique_from_NoDup. constructor. Qed.

Lemma insert_sorted_perm (x : A) (l : list A) :
  Permutation (insert_sorted leb x l) (x :: l).
Proof.
  induction l as [|y l IH]; simpl; [apply Permutation_refl|].
  destruct (leb x y); [apply Permutation_refl|].
  apply Permutation_trans with (y :: x :: l); [|apply perm_swap].
  apply perm_skip. exact IH.
Qed.

Lemma sorted_perm (l : list A) : Permutation (sorted leb l) l.
Proof.
  unfold sorted. induction l as [|x l IH]; simpl; [apply perm_nil|].
  apply Permutation_trans with (x :: fold_right (insert_sorted leb) [] l).
  - apply insert_sorted_perm.
  - apply perm_skip. exact IH.
Qed.

Lemma insert_sorted_Sorted (x : A) (l : list A) :
  Sorted (fun a b => leb a b = true) l ->
  Sorted (fun a b => leb a b = true) (insert_sorted leb x l).
Proof.
  induction 1 as [|y l Hs IH Hd]; simpl.
  - constructor; constructor.
  - destruct (leb x y) eqn:E.
    + constructor; [constructor; assumption|constructor; exact E].
    + constructor; [exact IH|].
      assert (Hyx : leb y x = true).
      { destruct (leb_total x y) as [H|H]; [congruence|exact H]. }
      destruct l as [|z l]; simpl; [constructor; exact Hyx|].
      destruct (leb x z); constructor; [exact Hyx|].
      inversion Hd; assumption.
Qed.

Lemma sorted_Sorted (l : list A) : Sorted (fun a b => leb a b = true) (sorted leb l).
Proof.
  unfold sorted. induction l as [|x l IH]; simpl; [constructor|].
  apply insert_sorted_Sorted. exact IH.
Qed.

Lemma choices_NoDup (l : list A) : NoDup (sorted leb (unique eqb l)).
Proof.
  apply (Permutation_NoDup (l := unique eqb l)).
  - apply Permutation_sym. apply sorted_perm.
  - apply unique_NoDup.
Qed.

End ChoiceLists.

Lemma NoDup_map_injective {A B : Type} (f : A -> B) (l : list A) :
  (forall x y, f x = f y -> x = y) -> NoDup l -> NoDup (map f l).
Proof.
  intros Hf. induction 1 as [|x l Hx Hl IH]; simpl; constructor; [|exact IH].
  intros Hin. apply in_map_iff in Hin. destruct Hin as (y & Hy & Hin).
  apply Hf in Hy. subst y. contradiction.
Qed.

Lemma Z_leb_total (x y : Z) : (x <=? y) = true \/ (y <=? x) = true.
Proof. rewrite !Z.leb_le. lia. Qed.

(** The sidebar lists every value that occurs in a column exactly once, in
    ascending order, and nothing else; and the keys of the checkboxes one
    run creates are pairwise distinct, whatever the data and the widget
    state. *)
Theorem sidebar_choices_and_keys_are_distinct :
  forall (ui : Sidebar) (df_raw : DataFrame),
    let age_groups := sorted String.leb (unique String.eqb (map age_group df_raw)) in
    let adm_types := sorted Z.leb (unique Z.eqb (map admission_type_id df_raw)) in
    NoDup age_groups
    /\ Sorted (fun a b => String.leb a b = true) age_groups
    /\ (forall a, In a age_groups <-> exists r, In r df_raw /\ age_group r = a)
    /\ NoDup adm_types
    /\ Sorted (fun a b => Z.leb a b = true) adm_types
    /\ (forall a, In a adm_types <-> exists r, In r df_raw /\ admission_type_id r = a)
    /\ NoDup (filter_widget_keys ui df_raw).
Proof.
  intros ui df_raw age_groups adm_types.
  assert (Na : NoDup age_groups) by apply (choices_NoDup _ String.eqb_eq).
  assert (Nt : NoDup adm_types) by apply (choices_NoDup _ Z.eqb_eq).
  assert (Ng : NoDup (sorted String.leb (unique String.eqb (map gender df_raw))))
    by apply (choices_NoDup _ String.eqb_eq).
  split; [exact Na|].
  split; [apply sorted_Sorted; apply String.leb_total|].
  split.
  { intros a. subst age_groups. rewrite sorted_In, (unique_In _ String.eqb_eq), in_map_iff.
    split; intros (r & H1 & H2); exists r; tauto. }
  split; [exact Nt|].
  split; [apply sorted_Sorted; apply Z_leb_total|].
  split.
  { intros a. subst adm_types. rewrite sorted_In, (unique_In _ Z.eqb_eq), in_map_iff.
    split; intros (r & H1 & H2); exists r; tauto. }
  unfold filter_widget_keys. fold age_groups adm_types.
  set (genders := sorted String.leb (unique String.eqb (map gender df_raw))) in *.
  assert (Ka : forall k, In k (if checkbox ui "Select All" "all_age" true then []
                               else map (fun a => "age_" ++ a)%string age_groups) ->
                         exists a, k = ("age_" ++ a)%string).
  { intros k Hk. destruct (checkbox ui "Select All" "all_age" true); [destruct Hk|].
    apply in_map_iff in Hk. destruct Hk as (a & <- & _). exists a. reflexivity. }
  assert (Kg : forall k, In k (if checkbox ui "Select All" "all_gender" true then []
                               else map (fun g => "gender_" ++ g)%string genders) ->
                         exists g, k = ("gender_" ++ g)%string).
  { intros k Hk. destruct (checkbox ui "Select All" "all_gender" true); [destruct Hk|].
    apply in_map_iff in Hk. destruct Hk as (g & <- & _). exists g. reflexivity. }
  assert (Kt : forall k, In k (if checkbox ui "Select All" "all_adm" true then []
                               else map (fun a => "adm_" ++ str_Z a)%string adm_types) ->
                         exists a, k = ("adm_" ++ a)%string).
  { intros k Hk. destruct (checkbox ui "Select All" "all_adm" true); [destruct Hk|].
    apply in_map_iff in Hk. destruct Hk as (a & <- & _). exists (str_Z a). reflexivity. }
  assert (Da : NoDup (if checkbox ui "Select All" "all_age" true then []
                      else map (fun a => "age_" ++ a)%string age_groups)).
  { destruct (checkbox ui "Select All" "all_age" true); [constructor|].
    apply NoDup_map_injective; [|exact Na]. intros x y. apply append_inj_r. }
  assert (Dg : NoDup (if checkbox ui "Select All" "all_gender" true then []
                      else map (fun g => "gender_" ++ g)%string genders)).
  { destruct (checkbox ui "Select All" "all_gender" true); [constructor|].
    apply NoDup_map_injective; [|exact Ng]. intros x y. apply append_inj_r. }
  assert (Dt : NoDup (if checkbox ui "Select All" "all_adm" true then []
                      else map (fun a => "adm_" ++ str_Z a)%string adm_types)).
  { destruct (checkbox ui "Select All" "all_adm" true); [constructor|].
    apply NoDup_map_injective; [|exact Nt].
    intros x y H. apply append_inj_r in H. apply str_Z_inj. exact H. }
  apply NoDup_app; [|apply NoDup_app|].
  - constructor; [|exact Da]. intros Hk. apply Ka in Hk. destruct Hk as (a & Hk).
    discriminate Hk.
  - constructor; [|exact Dg]. intros Hk. apply Kg in Hk. destruct Hk as (g & Hk).
    discriminate Hk.
  - constructor; [|exact Dt]. intros Hk. apply Kt in Hk. destruct Hk as (a & Hk).
    discriminate Hk.
  - intros k [<-|Hk] [E|Hk'].
    + discriminate E.
    + apply Kt in Hk'. destruct Hk' as (a & E). discriminate E.
    + apply Kg in Hk. destruct Hk as (g & ->). discriminate E.
    + apply Kg in Hk. destruct Hk as (g & ->). apply Kt in Hk'.
      destruct Hk' as (a & E). discriminate E.
  - intros k [<-|Hk] Hk'.
    + apply in_app_or in Hk'. destruct Hk' as [[E|Hk']|[E|Hk']]; try discriminate E.
      * apply Kg in Hk'. destruct Hk' as (g & E). discriminate E.
      * apply Kt in Hk'. destruct Hk' as (a & E). discriminate E.
    + apply Ka in Hk. destruct Hk as (a & ->).
      apply in_app_or in Hk'. destruct Hk' as [[E|Hk']|[E|Hk']]; try discriminate E.
      * apply Kg in Hk'. destruct Hk' as (g & E). discriminate E.
      * apply Kt in Hk'. destruct Hk' as (a' & E). discriminate E.
Qed.

(** ** KPI cards: gauges, colors and insight levels *)

Lemma Qle_bool_false (x y : Q) : Qle_bool x y = false <-> (y < x)%Q.
Proof.
  rewrite <- not_true_iff_false, Qle_bool_iff.
  split; [apply Qnot_le_lt|apply Qlt_not_le].
Qed.



Lemma compute_kpis_values (df : DataFrame) :
  exists r a p : Q,
    readmission_rate (compute_kpis df) = Some r
    /\ avg_los_readmitted (compute_kpis df) = Some a
    /\ polypharmacy_rate (compute_kpis df) = Some p.
Proof.
  destruct (kpi_rates_bounds df) as (r & p & Hr & Hp & _).
  destruct (kpis_of_readmitted_subset df) as [Ha _].
  destruct (Spec.readmitted_subset df); eexists r, _, p; repeat split; eassumption.
Qed.

(** The card colors and the insight wording of the Overview follow the
    KPI values, which are always numbers.  The readmission card is red
    exactly when the insight says "elevated" (rate >= 12), and the length
    of stay card is orange exactly when the insight says "high" (average
    above 5).  The polypharmacy card turns red from 75 on, while the
    insight says "very high" only from 80 on: "very high" implies a red
    card, not the converse. *)
Theorem card_colors_and_insight_levels :
  forall df : DataFrame,
  exists r a p : Q,
    readmission_rate (compute_kpis df) = Some r
    /\ avg_los_readmitted (compute_kpis df) = Some a
    /\ polypharmacy_rate (compute_kpis df) = Some p
    /\ (readmit_color (Some r) = RED <-> (12 <= r)%Q)
    /\ (readmit_level (Some r) = "elevated"%string <-> (12 <= r)%Q)
    /\ (readmit_level (Some r) = "moderate"%string <-> (8 <= r)%Q /\ (r < 12)%Q)
    /\ (los_color (Some a) = ORANGE <-> (5 < a)%Q)
    /\ (los_level (Some a) = "high"%string <-> (5 < a)%Q)
    /\ (los_level (Some a) = "moderate"%string <-> (7 # 2 <= a)%Q /\ (a <= 5)%Q)
    /\ (poly_color (Some p) = RED <-> (75 <= p)%Q)
    /\ (poly_level (Some p) = "very high"%string <-> (80 <= p)%Q)
    /\ (poly_level (Some p) = "elevated"%string <-> (60 <= p)%Q /\ (p < 80)%Q).
Proof.
  intros df. destruct (compute_kpis_values df) as (r & a & p & Hr & Ha & Hp).
  exists r, a, p. split; [exact Hr|]. split; [exact Ha|]. split; [exact Hp|].
  unfold readmit_color, readmit_level, los_color, los_level, poly_color, poly_level,
    float_ltb, float_leb, float_gtb, float_geb, geb, GREEN, RED, BLUE, ORANGE.
  repeat match goal with
         | |- _ /\ _ => split
         | |- _ <-> _ => split
         end;
    repeat match goal with
           | |- context [Qltb ?x ?y] =>
               let H := fresh "H" in
               destruct (Qltb x y) eqn:H; [apply Qltb_lt in H|apply Qltb_ge in H]
           | |- context [Qle_bool ?x ?y] =>
               let H := fresh "H" in
               destruct (Qle_bool x y) eqn:H;
               [apply Qle_bool_iff in H|apply Qle_bool_false in H]
           end;
    intros Hx;
    first [ reflexivity
          | discriminate Hx
          | lra
          | split; lra
          | destruct Hx; exfalso; lra
          | exfalso; lra ].
Qed.

(** ** Row order, concatenation and scaling *)

Lemma Permutation_filter {A : Type} (p : A -> bool) (l l' : list A) :
  Permutation l l' -> Permutation (filter p l) (filter p l').
Proof.
  induction 1 as [|x l l' H IH|x y l|l l' l'' H1 IH1 H2 IH2]; simpl.
  - constructor.
  - destruct (p x); [constructor|]; exact IH.
  - destruct (p x), (p y); try apply Permutation_refl. apply perm_swap.
  - apply Permutation_trans with (filter p l'); assumption.
Qed.

Lemma count_Permutation (p : Encounter -> bool) (df df' : DataFrame) :
  Permutation df df' -> Spec.count p df = Spec.count p df'.
Proof.
  intros H. unfold Spec.count. apply Permutation_length, Permutation_filter, H.
Qed.

Lemma total_los_Permutation (df df' : DataFrame) :
  Permutation df df' -> Spec.total_los df = Spec.total_los df'.
Proof.
  unfold Spec.total_los.
  induction 1 as [|x l l' H IH|x y l|l l' l'' H1 IH1 H2 IH2]; simpl; lia.
Qed.

Lemma readmission_rate_value (df : DataFrame) :
  readmission_rate (compute_kpis df)
  = match length df with
    | O => Some 0%Q
    | n => Some (round_Q (Spec.percentage (Spec.count Spec.readmitted_lt30 df) n) 1)
    end.
Proof.
  destruct df as [|x df]; [reflexivity|].
  rewrite compute_kpis_readmission_rate by (simpl; lia). reflexivity.
Qed.

Lemma contingency_Permutation (df df' : DataFrame) :
  Permutation df df' -> contingency df = contingency df'.
Proof.
  intros H. rewrite !contingency_cells. unfold Spec.cell.
  rewrite !(count_Permutation _ df df' H). reflexivity.
Qed.

(** The aggregates do not depend on the order of the rows: a reordered
    frame has the same three KPIs, the same contingency table and the same
    odds-ratio output, and its readmitted subset is the reordered
    readmitted subset. *)
Theorem aggregates_ignore_row_order :
  forall df df' : DataFrame,
    Permutation df df' ->
    readmission_rate (compute_kpis df) = readmission_rate (compute_kpis df')
    /\ avg_los_readmitted (compute_kpis df) = avg_los_readmitted (compute_kpis df')
    /\ polypharmacy_rate (compute_kpis df) = polypharmacy_rate (compute_kpis df')
    /\ Permutation (readmitted_df (compute_kpis df)) (readmitted_df (compute_kpis df'))
    /\ contingency df = contingency df'
    /\ odds_ratio_section df = odds_ratio_section df'.
Proof.
  intros df df' H.
  assert (Hrs : Permutation (Spec.readmitted_subset df) (Spec.readmitted_subset df'))
    by (apply Permutation_filter; exact H).
  split.
  { rewrite !readmission_rate_value, (Permutation_length H),
      (count_Permutation _ _ _ H). reflexivity. }
  destruct (kpis_of_readmitted_subset df) as [Ha Hp].
  destruct (kpis_of_readmitted_subset df') as [Ha' Hp'].
  assert (Hm : Spec.mean_los (Spec.readmitted_subset df)
               = Spec.mean_los (Spec.readmitted_subset df')).
  { unfold Spec.mean_los.
    rewrite (total_los_Permutation _ _ Hrs), (Permutation_length Hrs). reflexivity. }
  assert (Hc : Spec.percentage (Spec.count Spec.ten_or_more (Spec.readmitted_subset df))
                               (length (Spec.readmitted_subset df))
               = Spec.percentage (Spec.count Spec.ten_or_more (Spec.readmitted_subset df'))
                                 (length (Spec.readmitted_subset df'))).
  { rewrite (count_Permutation _ _ _ Hrs), (Permutation_length Hrs). reflexivity. }
  split; [|split].
  - rewrite Ha, Ha'.
    destruct (Spec.readmitted_subset df) as [|x rs] eqn:E.
    + apply Permutation_nil in Hrs. rewrite Hrs. reflexivity.
    + destruct (Spec.readmitted_subset df') as [|x' rs'] eqn:E';
        [apply Permutation_sym, Permutation_nil in Hrs; discriminate|].
      cbv beta iota zeta. f_equal. f_equal. exact Hm.
  - rewrite Hp, Hp'.
    destruct (Spec.readmitted_subset df) as [|x rs] eqn:E.
    + apply Permutation_nil in Hrs. rewrite Hrs. reflexivity.
    + destruct (Spec.readmitted_subset df') as [|x' rs'] eqn:E';
        [apply Permutation_sym, Permutation_nil in Hrs; discriminate|].
      cbv beta iota zeta. f_equal. f_equal. exact Hc.
  - rewrite !compute_kpis_readmitted_df.
    split; [exact Hrs|]. split; [apply contingency_Permutation; exact H|].
    unfold odds_ratio_section.
    rewrite (Permutation_length H), (contingency_Permutation _ _ H). reflexivity.
Qed.

Lemma aggregates_ignore_row_order_witness :
  readmission_rate (compute_kpis Sample.ten_rows)
  = readmission_rate (compute_kpis (rev Sample.ten_rows))
  /\ odds_ratio_section Sample.ten_rows = odds_ratio_section (rev Sample.ten_rows).
Proof.
  destruct (aggregates_ignore_row_order Sample.ten_rows (rev Sample.ten_rows)
              (Permutation_rev Sample.ten_rows)) as (H1 & _ & _ & _ & _ & H2).
  split; [exact H1|exact H2].
Defined.

Lemma cell_concat_repeat (p f : bool) (df : DataFrame) (k : nat) :
  Spec.cell p f (concat (repeat df k)) = Z.of_nat k * Spec.cell p f df.
Proof.
  induction k as [|k IH]; [reflexivity|].
  cbn [repeat concat]. rewrite cell_app, IH. lia.
Qed.

(** The contingency table of two frames put together is the cell-wise sum
    of their tables. *)
Theorem contingency_of_concatenation :
  forall df1 df2 : DataFrame,
    let '(a1, b1, c1, d1) := contingency df1 in
    let '(a2, b2, c2, d2) := contingency df2 in
    contingency (df1 ++ df2) = (a1 + a2, b1 + b2, c1 + c2, d1 + d2).
Proof.
  intros df1 df2. rewrite !contingency_cells, !cell_app. reflexivity.
Qed.

(** Repeating every row of a frame [k] times multiplies the four counts by
    [k]; when no count is zero, the odds ratio shown stays the same. *)
Theorem odds_ratio_is_scale_invariant :
  forall (df : DataFrame) (k : nat),
    (0 < k)%nat ->
    let '(a, b, c, d) := contingency df in
    0 < a -> 0 < b -> 0 < c -> 0 < d ->
    exists or_rounded : Q,
      odds_ratio_section df
      = OddsShown or_rounded {| polypharmacy_col := (a, b); no_polypharmacy_col := (c, d) |}
      /\ odds_ratio_section (concat (repeat df k))
         = OddsShown or_rounded
                     {| polypharmacy_col := (Z.of_nat k * a, Z.of_nat k * b);
                        no_polypharmacy_col := (Z.of_nat k * c, Z.of_nat k * d) |}.
Proof.
  intros df k Hk. rewrite contingency_cells. intros Ha Hb Hc Hd.
  pose proof (cells_partition df) as Hn.
  pose proof (cells_partition (concat (repeat df k))) as Hn'.
  rewrite !cell_concat_repeat in Hn'.
  assert (Hlen : (0 < length df)%nat) by lia.
  assert (Hlen' : (0 < length (concat (repeat df k)))%nat) by nia.
  eexists. split; [apply odds_ratio_section_cells; exact Hlen|].
  rewrite (odds_ratio_section_cells _ Hlen'), !cell_concat_repeat.
  f_equal. apply round_Q_compat.
  set (a := Spec.cell true true df) in *. set (b := Spec.cell true false df) in *.
  set (c := Spec.cell false true df) in *. set (d := Spec.cell false false df) in *.
  assert (HZ : forall x, 0 < x ->
                        Spec.zero_cell_corrected x = inject_Z x
                        /\ Spec.zero_cell_corrected (Z.of_nat k * x)
                           = (inject_Z (Z.of_nat k) * inject_Z x)%Q
                        /\ ~ (inject_Z x == 0)%Q).
  { intros x Hx. unfold Spec.zero_cell_corrected.
    destruct (Z.eqb_spec x 0); [lia|].
    destruct (Z.eqb_spec (Z.of_nat k * x) 0); [nia|].
    split; [reflexivity|]. split.
    - unfold Qmult, inject_Z. simpl. reflexivity.
    - unfold Qeq, inject_Z. simpl. lia. }
  destruct (HZ a Ha) as (-> & -> & Na). destruct (HZ b Hb) as (-> & -> & Nb).
  destruct (HZ c Hc) as (-> & -> & Nc). destruct (HZ d Hd) as (-> & -> & Nd).
  assert (Nk : ~ (inject_Z (Z.of_nat k) == 0)%Q).
  { unfold Qeq, inject_Z. simpl. lia. }
  field. repeat split; assumption.
Qed.

Lemma odds_ratio_is_scale_invariant_witness :
  exists or_rounded : Q,
    odds_ratio_section Sample.ten_rows
    = OddsShown or_rounded {| polypharmacy_col := (1, 4); no_polypharmacy_col := (2, 3) |}
    /\ odds_ratio_section (concat (repeat Sample.ten_rows 3))
       = OddsShown or_rounded
                   {| polypharmacy_col := (3, 12); no_polypharmacy_col := (6, 9) |}.
Proof.
  assert (Hk : (0 < 3)%nat) by lia.
  pose proof (odds_ratio_is_scale_invariant Sample.ten_rows 3 Hk) as H.
  change (contingency Sample.ten_rows) with (1, 4, 2, 3) in H.
  apply H; reflexivity.
Defined.

(** ** Medication distribution *)

Lemma cut_med_none (v : Q) :
  cut med_bins (Some v) = None <-> (v <= 0)%Q \/ (50 < v)%Q.
Proof.
  unfold cut, med_bins, searchsorted_left.
  repeat match goal with
         | |- context [Qltb ?a v] =>
             let H := fresh "H" in
             destruct (Qltb a v) eqn:H;
             [apply Qltb_lt in H|apply Qltb_ge in H]
         end;
    cbn [Nat.eqb orb length Nat.sub];
    (split; [intros E; try discriminate E; lra
            |intros [E|E]; try reflexivity; exfalso; lra]).
Qed.

Lemma cut_med_code_in_range (r : Encounter) :
  code_between 0 (length med_labels) (cut med_bins (num_medications r)) = med_in_range r.
Proof.
  unfold med_in_range. destruct (num_medications r) as [q|]; [|reflexivity].
  destruct (cut med_bins (Some q)) as [i|] eqn:Hc.
  - assert (Hi : (i < 6)%nat).
    { apply (cut_in_bin _ _ _ med_bins_increasing) in Hc.
      destruct Hc as (lo & hi & _ & Ehi & _).
      assert (H : (S i < length med_bins)%nat)
        by (apply nth_error_Some; rewrite Ehi; discriminate).
      simpl in H. lia. }
    assert (Hr : ~ ((q <= 0)%Q \/ (50 < q)%Q)).
    { rewrite <- cut_med_none, Hc. discriminate. }
    cbn [code_between length med_labels Nat.leb andb].
    destruct (Nat.ltb_spec i 6); [|lia].
    symmetry. apply andb_true_iff. split.
    + apply Qltb_lt. apply Qnot_le_lt. intros H'. apply Hr. left. exact H'.
    + apply Qle_bool_iff. apply Qnot_lt_le. intros H'. apply Hr. right. exact H'.
  - apply cut_med_none in Hc. cbn [code_between].
    symmetry. apply andb_false_iff. destruct Hc as [Hc|Hc].
    + left. apply Qltb_ge. exact Hc.
    + right. apply Qle_bool_false. exact Hc.
Qed.

(** The medication chart of the Overview is built from the readmitted
    subset.  When that subset is non-empty, the chart has the six labels in
    bin order, and its counts add up to the number of readmitted rows whose
    medication count is a number in (0, 50]: rows with a missing count, a
    count of 0 or a count above 50 are in no bar, so the total never
    exceeds the number of readmitted rows. *)
Theorem medication_chart_counts_binned_rows :
  forall df : DataFrame,
    readmitted_df (compute_kpis df) <> [] ->
    exists dist,
      ov_poly_tab (show_overview df (compute_kpis df)) = BarChart dist
      /\ map fst dist = med_labels
      /\ Spec.total dist = Spec.count med_in_range (readmitted_df (compute_kpis df))
      /\ (Spec.total dist <= length (readmitted_df (compute_kpis df)))%nat.
Proof.
  intros df Hne. cbn [show_overview ov_poly_tab].
  set (rs := readmitted_df (compute_kpis df)) in *.
  unfold poly_tab.
  assert (Hn : (0 <? length rs)%nat = true).
  { destruct rs; [contradiction|reflexivity]. }
  rewrite Hn. eexists. split; [reflexivity|]. split; [apply value_counts_labels|].
  assert (Ht : Spec.total (value_counts_sort_index med_labels
                             (map (cut med_bins) (map num_medications rs)))
               = Spec.count med_in_range rs).
  { rewrite value_counts_total, map_map. unfold Spec.count.
    clear Hn Hne. induction rs as [|x l IHl]; [reflexivity|].
    cbn [map filter]. rewrite cut_med_code_in_range.
    destruct (med_in_range x); cbn [length]; rewrite IHl; reflexivity. }
  split; [exact Ht|]. rewrite Ht. apply count_le_length.
Qed.

Lemma medication_chart_counts_binned_rows_witness :
  exists dist,
    ov_poly_tab (show_overview Sample.ten_rows (compute_kpis Sample.ten_rows)) = BarChart dist
    /\ Spec.total dist = 3%nat.
Proof.
  assert (H : readmitted_df (compute_kpis Sample.ten_rows) <> []) by discriminate.
  destruct (medication_chart_counts_binned_rows Sample.ten_rows H)
    as (dist & Hd & _ & Ht & _).
  exists dist. split; [exact Hd|]. rewrite Ht. reflexivity.
Defined.

(** ** Readmission rate by age group (EDA page) *)




(** ** Readmission shares (first tab of the Overview) *)







Section ReadmissionShares.
Variable sort_counts : list (string * Z) -> list (string * Z).
Hypothesis sort_counts_perm : forall l, Permutation (sort_counts l) l.




End ReadmissionShares.


